(** * Session state controller of the research front end

    A shallow embedding of the React component [ResearchSession]
    (frontend/src/components/ResearchSession.js) and of the score helpers of
    [HypothesisCard], with the properties of the controller stated on it.

    The component is a set of event handlers over [useState] cells.  It is
    embedded as a state-and-exception monad over a record of those cells:
    every [setX(v)] is a write, every functional update [setX(prev => ...)]
    is applied to the cell, a [throw] keeps the writes already made, and
    [try/catch] is [try_catch].  A handler is a closure over the render that
    created it; the values it reads from that render are passed as the
    [render] argument, the cells it writes are the monad's state. *)

From Stdlib Require Import Floats ZArith Ascii String DecimalString DecimalN
  DecimalPos Sorted Permutation.
From stdpp Require Import gmap strings list fin_maps.
Set Warnings "-inexact-float,-register-all".

(** ** JavaScript values *)

(** What [JSON.parse] produces, plus [undefined].  A number is an IEEE 754
    binary64, as in the language. *)
Inductive value : Type :=
| VUndefined
| VNull
| VBool (b : bool)
| VNum (x : float)
| VStr (s : string)
| VArr (l : list value)
| VObj (o : gmap string value).

Abbreviation obj := (gmap string value).

(** ToBoolean: [undefined], [null], [false], [+0], [-0], [NaN] and the empty
    string are falsy. *)
Definition truthy (v : value) : bool :=
  match v with
  | VUndefined | VNull => false
  | VBool b => b
  | VNum x => negb (PrimFloat.eqb x 0 || PrimFloat.is_nan x)
  | VStr s => negb (String.eqb s "")
  | VArr _ | VObj _ => true
  end.

(** [a || b] *)
Definition js_or (a b : value) : value := if truthy a then a else b.

(** [a === b].  Arrays and objects compare by reference; the operands the
    component compares come from two different decoded messages (or from a
    message and a literal), so two of them are never the same reference. *)
Definition strict_eq (a b : value) : bool :=
  match a, b with
  | VUndefined, VUndefined | VNull, VNull => true
  | VBool x, VBool y => Bool.eqb x y
  | VNum x, VNum y => PrimFloat.eqb x y
  | VStr x, VStr y => String.eqb x y
  | _, _ => false
  end.

(** The canonical numeric string of an array index. *)
Definition index_key (i : nat) : string := NilZero.string_of_uint (Nat.to_uint i).

(** Own enumerable properties: what [{...v}] copies.  Strings are sequences
    of bytes here (the language has UTF-16 code units). *)
Definition ownEnumerable (v : value) : obj :=
  match v with
  | VObj o => o
  | VArr l => list_to_map (imap (λ i x, (index_key i, x)) l)
  | VStr s =>
      list_to_map (imap (λ i c, (index_key i, VStr (String c EmptyString)))
                        (list_ascii_of_string s))
  | _ => ∅
  end.

(** [o.k] on a stored object: a missing property reads [undefined]. *)
Definition field (o : obj) (k : string) : value := default VUndefined (o !! k).

(** [v.k] for a property name that no prototype defines and that is not
    ["length"] (every name the component reads is such a name).  [None] is
    the TypeError raised on [undefined] and [null]. *)
Definition get (v : value) (k : string) : option value :=
  match v with
  | VUndefined | VNull => None
  | _ => Some (field (ownEnumerable v) k)
  end.

(** [v.k] where [v] is known to be neither [undefined] nor [null]. *)
Definition get_def (v : value) (k : string) : value := default VUndefined (get v k).

Definition lower_ascii (c : ascii) : ascii :=
  let n := nat_of_ascii c in
  if Nat.leb 65 n && Nat.leb n 90 then ascii_of_nat (n + 32) else c.

(** Text all of whose characters are ASCII.  A string is a sequence of bytes
    here and of UTF-16 code units in the language; on ASCII text the two
    are the same sequence, and [lower_string], [trim] and [String.length]
    below are exactly [toLowerCase], [trim] and [length].  On other text
    the language also maps letters outside A-Z, strips white space outside
    ASCII (U+00A0 and the like) and counts code units, not bytes: what
    depends on the outcome there is stated for ASCII text only. *)
Definition asciiText (s : string) : bool :=
  forallb (λ c, Nat.ltb (nat_of_ascii c) 128) (list_ascii_of_string s).

(** [String.prototype.toLowerCase] on ASCII text: the letters A-Z. *)
Fixpoint lower_string (s : string) : string :=
  match s with
  | EmptyString => EmptyString
  | String c s' => String (lower_ascii c) (lower_string s')
  end.

(** [v.toLowerCase()]: only a string has the method; on any other truthy
    value the call raises a TypeError ([None]). *)
Definition toLowerCase (v : value) : option string :=
  match v with
  | VStr s => Some (lower_string s)
  | _ => None
  end.

Definition is_space (c : ascii) : bool :=
  let n := nat_of_ascii c in
  Nat.eqb n 32 || (Nat.leb 9 n && Nat.leb n 13).

Fixpoint trim_start (l : list ascii) : list ascii :=
  match l with
  | c :: l' => if is_space c then trim_start l' else l
  | [] => []
  end.

(** [String.prototype.trim] on ASCII text: tab, line feed, vertical tab,
    form feed, carriage return and space are the white space there. *)
Definition trim (s : string) : string :=
  string_of_list_ascii
    (rev (trim_start (rev (trim_start (list_ascii_of_string s))))).

(** Conversions that the host provides and that are not spelled out here:
    the numeric-literal parser behind ToNumber on a string, and ToPrimitive
    on an array or a plain object (which yields a string). *)
Class Host := {
  StringToNumber : string → float;
  ObjectToString : value → string
}.

Section Coercions.
Context `{Host}.

(** ToNumber *)
Definition ToNumber (v : value) : float :=
  match v with
  | VUndefined => PrimFloat.nan
  | VNull => 0%float
  | VBool b => if b then 1%float else 0%float
  | VNum x => x
  | VStr s => StringToNumber s
  | VArr _ | VObj _ => StringToNumber (ObjectToString v)
  end.

(** [v >= c] against a number literal [c]: false when ToNumber gives NaN. *)
Definition js_ge (v : value) (c : float) : bool := PrimFloat.leb c (ToNumber v).

(** [a - b] *)
Definition js_sub (a b : value) : float := PrimFloat.sub (ToNumber a) (ToNumber b).
End Coercions.

(** ** HypothesisCard: score helpers *)

Section ScoreHelpers.
Context `{Host}.

Definition getScoreColor (score : value) : string :=
  if js_ge score 0.8%float then "#059669"
  else if js_ge score 0.6%float then "#d97706"
  else if js_ge score 0.4%float then "#dc2626"
  else "#6b7280".

Definition getScoreLabel (score : value) : string :=
  if js_ge score 0.8%float then "High Quality"
  else if js_ge score 0.6%float then "Good Quality"
  else if js_ge score 0.4%float then "Moderate Quality"
  else "Needs Review".

(** Label and colour of a score. *)
Definition tier (score : value) : string * string :=
  (getScoreLabel score, getScoreColor score).
End ScoreHelpers.

(** ** The component's state cells *)

(** Fifteen of the sixteen [useState] cells.  The sixteenth, [ws], holds the
    socket object: [connectWebSocket] stores it with [setWs], the unmount
    clean-up reads it, and no event handler reads or writes it
    ([resetSession] has no [setWs]).  It is left out. *)
Record State := mkState {
  sessionId : option string;          (* null | string *)
  researchGoal : string;
  hypotheses : list obj;
  isStarted : bool;
  error : value;                      (* null | message *)
  sessionStatus : string;
  domainContext : value;              (* null | decoded response | default *)
  domainDetectionLoading : bool;
  maxIterations : float;
  hypothesesPerIteration : float;
  wsConnected : bool;
  currentAgent : value;
  iteration : value;
  progress : obj;
  isRunning : bool
}.

Definition pendingProgress : obj :=
  <["generation" := VStr "pending"]>
    (<["reflection" := VStr "pending"]> (<["ranking" := VStr "pending"]> ∅)).

Definition completedProgress : obj :=
  <["generation" := VStr "completed"]>
    (<["reflection" := VStr "completed"]> (<["ranking" := VStr "completed"]> ∅)).

(** The [useState] initial values: the state of the first render. *)
Definition initialState : State :=
  {| sessionId := None; researchGoal := ""; hypotheses := []; isStarted := false;
     error := VNull; sessionStatus := "idle"; domainContext := VNull;
     domainDetectionLoading := false; maxIterations := 3%float;
     hypothesesPerIteration := 1%float; wsConnected := false;
     currentAgent := VStr ""; iteration := VNum 0%float;
     progress := pendingProgress; isRunning := false |}.

Inductive Exn : Type :=
| JsError (name message : string).

Definition exn_message (e : Exn) : string :=
  match e with JsError _ m => m end.

Inductive LogEntry : Type :=
| ConsoleLog (text : string) (args : list value)
| ConsoleError (text : string) (e : Exn).

(** The state cells, the console, and whether a state updater has raised
    while React was rendering (an updater [prev => ...] runs in the render
    phase, outside the handler that queued it; the component has no error
    boundary, so the tree is unmounted).  [renderError] records that and
    nothing else: the only updater that can raise is the one that
    [handleAgentUpdate] passes to [setProgress].  What the render functions
    themselves do with the stored values (the JSX of [ResearchSession],
    [HypothesisCard]) is not part of the embedding, so [renderError = false]
    does not say that the next render succeeds. *)
Record World := mkWorld {
  react : State;
  console : list LogEntry;
  renderError : bool
}.

Inductive Completion (A : Type) : Type :=
| Normal (a : A)
| Throw (e : Exn).
Arguments Normal {A} a.
Arguments Throw {A} e.

Definition M (A : Type) : Type := World → Completion A * World.

Definition ret {A} (a : A) : M A := λ w, (Normal a, w).

Definition bind {A B} (c : M A) (k : A → M B) : M B :=
  λ w, match c w with
       | (Normal a, w') => k a w'
       | (Throw e, w') => (Throw e, w')
       end.

Definition throw {A} (e : Exn) : M A := λ w, (Throw e, w).

Definition try_catch {A} (body : M A) (handler : Exn → M A) : M A :=
  λ w, match body w with
       | (Throw e, w') => handler e w'
       | r => r
       end.

Declare Scope js_scope.
Delimit Scope js_scope with js.
Notation "x <~ c ;; k" := (bind c (λ x, k))
  (at level 20, c at level 99, k at level 200, only parsing) : js_scope.
Notation "c ;; k" := (bind c (λ _, k))
  (at level 100, k at level 200, only parsing, right associativity) : js_scope.
Open Scope js_scope.

Definition when (b : bool) (c : M unit) : M unit := if b then c else ret tt.

Definition update (f : State → State) : M unit :=
  λ w, (Normal tt, mkWorld (f (react w)) (console w) (renderError w)).

Definition log (e : LogEntry) : M unit :=
  λ w, (Normal tt, mkWorld (react w) (console w ++ [e]) (renderError w)).

Definition typeError {A} (m : string) : M A := throw (JsError "TypeError" m).

(** [v.k] as a statement of a handler. *)
Definition prop (v : value) (k : string) : M value :=
  match get v k with
  | Some x => ret x
  | None => typeError "Cannot read properties of undefined"
  end.

(** *** Setters *)

(** The state with one cell replaced. *)
Definition with_sessionId (v : option string) (s : State) : State :=
  mkState
    v (researchGoal s) (hypotheses s) (isStarted s) (error s) (sessionStatus s)
    (domainContext s) (domainDetectionLoading s) (maxIterations s)
    (hypothesesPerIteration s) (wsConnected s) (currentAgent s) (iteration s)
    (progress s) (isRunning s).

Definition with_researchGoal (v : string) (s : State) : State :=
  mkState
    (sessionId s) v (hypotheses s) (isStarted s) (error s) (sessionStatus s)
    (domainContext s) (domainDetectionLoading s) (maxIterations s)
    (hypothesesPerIteration s) (wsConnected s) (currentAgent s) (iteration s)
    (progress s) (isRunning s).

Definition with_hypotheses (v : list obj) (s : State) : State :=
  mkState
    (sessionId s) (researchGoal s) v (isStarted s) (error s) (sessionStatus s)
    (domainContext s) (domainDetectionLoading s) (maxIterations s)
    (hypothesesPerIteration s) (wsConnected s) (currentAgent s) (iteration s)
    (progress s) (isRunning s).

Definition with_isStarted (v : bool) (s : State) : State :=
  mkState
    (sessionId s) (researchGoal s) (hypotheses s) v (error s) (sessionStatus s)
    (domainContext s) (domainDetectionLoading s) (maxIterations s)
    (hypothesesPerIteration s) (wsConnected s) (currentAgent s) (iteration s)
    (progress s) (isRunning s).

Definition with_error (v : value) (s : State) : State :=
  mkState
    (sessionId s) (researchGoal s) (hypotheses s) (isStarted s) v (sessionStatus s)
    (domainContext s) (domainDetectionLoading s) (maxIterations s)
    (hypothesesPerIteration s) (wsConnected s) (currentAgent s) (iteration s)
    (progress s) (isRunning s).

Definition with_sessionStatus (v : string) (s : State) : State :=
  mkState
    (sessionId s) (researchGoal s) (hypotheses s) (isStarted s) (error s) v
    (domainContext s) (domainDetectionLoading s) (maxIterations s)
    (hypothesesPerIteration s) (wsConnected s) (currentAgent s) (iteration s)
    (progress s) (isRunning s).

Definition with_domainContext (v : value) (s : State) : State :=
  mkState
    (sessionId s) (researchGoal s) (hypotheses s) (isStarted s) (error s)
    (sessionStatus s) v (domainDetectionLoading s) (maxIterations s)
    (hypothesesPerIteration s) (wsConnected s) (currentAgent s) (iteration s)
    (progress s) (isRunning s).

Definition with_domainDetectionLoading (v : bool) (s : State) : State :=
  mkState
    (sessionId s) (researchGoal s) (hypotheses s) (isStarted s) (error s)
    (sessionStatus s) (domainContext s) v (maxIterations s) (hypothesesPerIteration s)
    (wsConnected s) (currentAgent s) (iteration s) (progress s) (isRunning s).

Definition with_maxIterations (v : float) (s : State) : State :=
  mkState
    (sessionId s) (researchGoal s) (hypotheses s) (isStarted s) (error s)
    (sessionStatus s) (domainContext s) (domainDetectionLoading s) v
    (hypothesesPerIteration s) (wsConnected s) (currentAgent s) (iteration s)
    (progress s) (isRunning s).

Definition with_hypothesesPerIteration (v : float) (s : State) : State :=
  mkState
    (sessionId s) (researchGoal s) (hypotheses s) (isStarted s) (error s)
    (sessionStatus s) (domainContext s) (domainDetectionLoading s) (maxIterations s) v
    (wsConnected s) (currentAgent s) (iteration s) (progress s) (isRunning s).

Definition with_wsConnected (v : bool) (s : State) : State :=
  mkState
    (sessionId s) (researchGoal s) (hypotheses s) (isStarted s) (error s)
    (sessionStatus s) (domainContext s) (domainDetectionLoading s) (maxIterations s)
    (hypothesesPerIteration s) v (currentAgent s) (iteration s) (progress s)
    (isRunning s).

Definition with_currentAgent (v : value) (s : State) : State :=
  mkState
    (sessionId s) (researchGoal s) (hypotheses s) (isStarted s) (error s)
    (sessionStatus s) (domainContext s) (domainDetectionLoading s) (maxIterations s)
    (hypothesesPerIteration s) (wsConnected s) v (iteration s) (progress s)
    (isRunning s).

Definition with_iteration (v : value) (s : State) : State :=
  mkState
    (sessionId s) (researchGoal s) (hypotheses s) (isStarted s) (error s)
    (sessionStatus s) (domainContext s) (domainDetectionLoading s) (maxIterations s)
    (hypothesesPerIteration s) (wsConnected s) (currentAgent s) v (progress s)
    (isRunning s).

Definition with_progress (v : obj) (s : State) : State :=
  mkState
    (sessionId s) (researchGoal s) (hypotheses s) (isStarted s) (error s)
    (sessionStatus s) (domainContext s) (domainDetectionLoading s) (maxIterations s)
    (hypothesesPerIteration s) (wsConnected s) (currentAgent s) (iteration s) v
    (isRunning s).

Definition with_isRunning (v : bool) (s : State) : State :=
  mkState
    (sessionId s) (researchGoal s) (hypotheses s) (isStarted s) (error s)
    (sessionStatus s) (domainContext s) (domainDetectionLoading s) (maxIterations s)
    (hypothesesPerIteration s) (wsConnected s) (currentAgent s) (iteration s)
    (progress s) v.

(** [setX(v)] *)
Definition setSessionId (v : option string) : M unit := update (with_sessionId v).

Definition setResearchGoal (v : string) : M unit := update (with_researchGoal v).

(** [setHypotheses(prev => f(prev))]; [setHypotheses(v)] is the constant [f]. *)
Definition setHypotheses (f : list obj → list obj) : M unit :=
  update (λ s, with_hypotheses (f (hypotheses s)) s).

Definition setIsStarted (v : bool) : M unit := update (with_isStarted v).

Definition setError (v : value) : M unit := update (with_error v).

Definition setSessionStatus (v : string) : M unit := update (with_sessionStatus v).

Definition setDomainContext (v : value) : M unit := update (with_domainContext v).

Definition setDomainDetectionLoading (v : bool) : M unit := update (with_domainDetectionLoading v).

Definition setMaxIterations (v : float) : M unit := update (with_maxIterations v).

Definition setHypothesesPerIteration (v : float) : M unit := update (with_hypothesesPerIteration v).

Definition setWsConnected (v : bool) : M unit := update (with_wsConnected v).

Definition setCurrentAgent (v : value) : M unit := update (with_currentAgent v).

Definition setIteration (v : value) : M unit := update (with_iteration v).

Definition setProgress (v : obj) : M unit := update (with_progress v).

Definition setIsRunning (v : bool) : M unit := update (with_isRunning v).

(** [setProgress(prev => f(prev))] for an updater that can raise: the
    exception surfaces in the render phase, not in the handler. *)
Definition setProgressWith (f : obj → option obj) : M unit :=
  λ w, match f (progress (react w)) with
       | Some p => setProgress p w
       | None => (Normal tt, mkWorld (react w) (console w) true)
       end.

(** ** Hypothesis store: the three updaters of [handleAgentUpdate] *)

(** generation: [prev => prev.find(h => h.id === hyp.id) ? prev
    : [...prev, {...hyp, isProcessing: true}]] *)
Definition addHypothesis (hyp : value) (prev : list obj) : list obj :=
  match List.find (λ h, strict_eq (field h "id") (get_def hyp "id")) prev with
  | Some _ => prev
  | None => prev ++ [ <["isProcessing" := VBool true]> (ownEnumerable hyp) ]
  end.

(** reflection: the body of [prev.map(h => ...)]; [seen] is the handler's
    [iteration]. *)
Definition applyReview (seen review : value) (h : obj) : obj :=
  if strict_eq (field h "iteration") seen && truthy (field h "isProcessing")
  then <["isProcessing" := VBool false]>
         (<["score" := js_or (get_def review "score") (field h "score")]>
            (<["review" := js_or (get_def review "review") review]> h))
  else h.

(** ranking: [h => ({...h, isProcessing: false})] *)
Definition markRanked (h : value) : obj :=
  <["isProcessing" := VBool false]> (ownEnumerable h).

(** ** Channel handlers *)

Definition handleAgentUpdate (render : State) (message : value) : M unit :=
  agent <~ prop message "agent" ;;
  status <~ prop message "status" ;;
  data <~ prop message "data" ;;
  when (truthy agent && truthy status) (
    setCurrentAgent agent ;;
    setProgressWith (λ prev,
      match toLowerCase agent with
      | Some k => Some (<[k := status]> prev)
      | None => None
      end) ;;
    when (strict_eq status (VStr "running")) (setIsRunning true) ;;
    when (strict_eq status (VStr "completed")) (
      (if strict_eq agent (VStr "generation") then
         hyp <~ prop data "hypothesis" ;;
         when (truthy hyp) (setHypotheses (addHypothesis hyp))
       else ret tt) ;;
      (if strict_eq agent (VStr "reflection") then
         review <~ prop data "review" ;;
         when (truthy review)
              (setHypotheses (map (applyReview (iteration render) review)))
       else ret tt) ;;
      (if strict_eq agent (VStr "ranking") then
         ranked <~ prop data "ranked_hypotheses" ;;
         when (truthy ranked)
              match ranked with
              | VArr l => setHypotheses (λ _, map markRanked l)
              | _ => typeError "data.ranked_hypotheses.map is not a function"
              end
       else ret tt))).

Definition handleSessionUpdate (message : value) : M unit :=
  event_type <~ prop message "event_type" ;;
  data <~ prop message "data" ;;
  if strict_eq event_type (VStr "research_started") then
    setSessionStatus "running" ;;
    setIsRunning true
  else if strict_eq event_type (VStr "iteration_start") then
    it <~ prop data "iteration" ;;
    when (truthy it) (
      setIteration it ;;
      setProgress pendingProgress)
  else if strict_eq event_type (VStr "research_completed") then
    setSessionStatus "completed" ;;
    setIsStarted false ;;
    setIsRunning false ;;
    setProgress completedProgress
  else if strict_eq event_type (VStr "research_error") then
    setSessionStatus "error" ;;
    e <~ prop data "error" ;;
    setError (js_or e (VStr "Research session failed")) ;;
    setIsStarted false ;;
    setIsRunning false
  else
    log (ConsoleLog "Unknown session event:" [event_type]).

Definition handleWebSocketMessage (render : State) (message : value) : M unit :=
  log (ConsoleLog "Received WebSocket message:" [message]) ;;
  ty <~ prop message "type" ;;
  if strict_eq ty (VStr "agent_update") then handleAgentUpdate render message
  else if strict_eq ty (VStr "session_update") then handleSessionUpdate message
  else log (ConsoleLog "Unknown message type:" [ty]).

(** [websocket.onmessage]; [decoded] is the outcome of [JSON.parse(event.data)],
    [None] when it raises. *)
Definition onmessage (render : State) (decoded : option value) : M unit :=
  try_catch
    (message <~ match decoded with
                | Some v => ret v
                | None => throw (JsError "SyntaxError" "Unexpected token")
                end ;;
     handleWebSocketMessage render message)
    (λ e, log (ConsoleError "Failed to parse WebSocket message:" e)).

(** The handler the component installs.  [connectWebSocket] lives in a
    [useEffect] with the dependency list [[]]: it runs once, after the first
    render, and every reconnect re-runs that same closure.  The
    [handleWebSocketMessage] and [handleAgentUpdate] it calls are therefore
    those of the first render, in whose scope [iteration] is the initial 0. *)
Definition websocket_onmessage : option value → M unit := onmessage initialState.

Definition websocket_onopen : M unit :=
  log (ConsoleLog "WebSocket connected" []) ;;
  setWsConnected true.

Definition websocket_onclose : M unit :=
  log (ConsoleLog "WebSocket disconnected" []) ;;
  setWsConnected false.

Definition websocket_onerror (e : Exn) : M unit :=
  log (ConsoleError "WebSocket error:" e) ;;
  setWsConnected false.

(** ** Commands *)

Definition decimal (n : N) : string := NilZero.string_of_uint (N.to_uint n).

Record StartRequest := mkStartRequest {
  research_goal : string;
  session_id : string;
  max_iterations : float;
  hypotheses_per_iteration : float
}.

(** How a [fetch] followed by [response.json()] ends: the request is
    rejected (network error), or a response with a status arrives whose body
    decodes or not. *)
Inductive FetchOutcome : Type :=
| Rejected (e : Exn)
| Responded (status : N) (body : Exn + value).

(** [response.ok] *)
Definition response_ok (status : N) : bool :=
  N.leb 200 status && N.leb status 299.

(** [startResearch] up to its first [await]; [now] is [Date.now()].  The
    result is the request sent, if any.  [!researchGoal.trim()] is read
    through [trim], which is the language's on ASCII text. *)
Definition startResearch_begin (render : State) (now : N) : M (option StartRequest) :=
  if negb (truthy (VStr (trim (researchGoal render)))) then
    setError (VStr "Please enter a research goal") ;;
    ret None
  else if negb (wsConnected render) then
    setError (VStr "WebSocket not connected. Please wait and try again.") ;;
    ret None
  else
    setError VNull ;;
    setIsStarted true ;;
    setSessionStatus "running" ;;
    setHypotheses (λ _, []) ;;
    let newSessionId := ("session_" ++ decimal now)%string in
    setSessionId (Some newSessionId) ;;
    ret (Some (mkStartRequest (researchGoal render) newSessionId
                 (maxIterations render) (hypothesesPerIteration render))).

(** The [catch] block of [startResearch].  Everything raised in the [try]
    is an [Error] instance, so the message shown is [err.message]. *)
Definition startResearch_catch (err : Exn) : M unit :=
  log (ConsoleError "Failed to start research:" err) ;;
  setError (VStr (exn_message err)) ;;
  setIsStarted false ;;
  setSessionStatus "error".

(** [startResearch] from the first [await] on. *)
Definition startResearch_settle (o : FetchOutcome) : M unit :=
  try_catch
    match o with
    | Rejected e => throw e
    | Responded status body =>
        if negb (response_ok status) then
          throw (JsError "Error" ("HTTP error! status: " ++ decimal status))
        else
          match body with
          | inl e => throw e
          | inr result => log (ConsoleLog "Research started:" [result])
          end
    end
    startResearch_catch.

Definition stopResearch : M unit :=
  setIsStarted false ;;
  setSessionStatus "idle" ;;
  setIsRunning false ;;
  setProgress pendingProgress ;;
  setCurrentAgent (VStr "") ;;
  setIteration (VNum 0%float).

Definition resetSession : M unit :=
  setSessionId None ;;
  setResearchGoal "" ;;
  setHypotheses (λ _, []) ;;
  setIsStarted false ;;
  setError VNull ;;
  setSessionStatus "idle" ;;
  setIsRunning false ;;
  setProgress pendingProgress ;;
  setCurrentAgent (VStr "") ;;
  setIteration (VNum 0%float) ;;
  setDomainContext VNull ;;
  setMaxIterations 3%float ;;
  setHypothesesPerIteration 1%float.

(** ** Domain inference *)

Definition getDefaultDomainContext : value :=
  VObj (<["domain" := VStr "general"]>
       (<["expert_role" := VStr "scientific researcher"]>
       (<["research_focus" := VStr "scientific research"]>
       (<["hypothesis_type" := VStr "research hypothesis"]> ∅)))).

(** [detectDomain] up to its [await]: the result tells whether a request
    was issued.  [researchGoal.trim().length] is [String.length] of [trim]
    on ASCII text (see [asciiText]). *)
Definition detectDomain_begin (render : State) : M bool :=
  let n := String.length (trim (researchGoal render)) in
  if Nat.ltb 15 n && negb (isStarted render) then
    setDomainDetectionLoading true ;;
    ret true
  else if Nat.leb n 15 then
    setDomainContext VNull ;;
    ret false
  else ret false.

(** [detectDomain] from its [await] on: [try], [catch], [finally]. *)
Definition detectDomain_settle (o : FetchOutcome) : M unit :=
  try_catch
    match o with
    | Rejected e => throw e
    | Responded status body =>
        if response_ok status then
          match body with
          | inl e => throw e
          | inr domain => setDomainContext domain
          end
        else ret tt
    end
    (λ _, log (ConsoleLog "Domain detection failed, using general context" []) ;;
          setDomainContext getDefaultDomainContext) ;;
  setDomainDetectionLoading false.

(** ** Derived views *)

(** [h => !h.isProcessing && h.review && h.score] *)
Definition isReady (h : obj) : bool :=
  negb (truthy (field h "isProcessing"))
  && truthy (field h "review") && truthy (field h "score").

(** The ready subset. *)
Definition completedHypotheses (s : State) : list obj :=
  List.filter isReady (hypotheses s).

Definition processingCount (s : State) : nat :=
  length (List.filter (λ h, truthy (field h "isProcessing")) (hypotheses s)).

(** [Array.prototype.sort(comparefn)] is a stable sort (ECMAScript 2019):
    an element moves behind another one only when [comparefn] of the two is
    positive, and a NaN result counts as +0.  For a [comparefn] that is
    consistent on the array (a strict weak order) the language fixes the
    result, every engine returns the same array, and it is embedded as the
    stable insertion sort.  For a [comparefn] that is not consistent the
    language leaves the order to the engine, and an engine need not return
    what the insertion sort returns.  The comparator of the ready view is
    consistent when the scores compared are numbers; it is not when one of
    them is a truthy value that is no number, the difference being NaN
    against every other score. *)
Section ArraySort.
Context {A : Type} (comparefn : A → A → float).

Definition goes_behind (x y : A) : bool := PrimFloat.ltb 0 (comparefn x y).

Fixpoint sort_insert (x : A) (l : list A) : list A :=
  match l with
  | [] => [x]
  | y :: l' => if goes_behind x y then y :: sort_insert x l' else x :: l
  end.

Definition Array_sort (l : list A) : list A := foldr sort_insert [] l.

(** [x] may stand directly before [y]: [comparefn] does not send it behind. *)
Definition in_order (x y : A) : Prop := goes_behind x y = false.
End ArraySort.

Section ReadyView.
Context `{Host}.

(** [(a, b) => (b.score || 0) - (a.score || 0)] *)
Definition byScoreDescending (a b : obj) : float :=
  js_sub (js_or (field b "score") (VNum 0)) (js_or (field a "score") (VNum 0)).

(** The list the component renders:
    [completedHypotheses.sort((a, b) => ...)]. *)
Definition sortedHypotheses (s : State) : list obj :=
  Array_sort byScoreDescending (completedHypotheses s).
End ReadyView.

(** ** The controller as a transition system *)

Inductive Event : Type :=
| ChannelMessage (decoded : option value)
| ChannelOpen
| ChannelClose
| ChannelError (e : Exn)
| GoalEdited (text : string)
| MaxIterationsEdited (parsed : float)
| HypothesesPerIterationEdited (parsed : float)
| DomainTimerFired
| DomainRequestSettled (o : FetchOutcome)
| StartClicked (now : N)
| StartRequestSettled (o : FetchOutcome)
| StopClicked
| ResetClicked.

(** [parseInt(e.target.value) || 1] *)
Definition orOne (parsed : float) : float :=
  if truthy (VNum parsed) then parsed else 1%float.

Definition void {A} (c : M A) : M unit := bind c (λ _, ret tt).

(** One event.  A click or a timer runs the handler of the current render;
    the channel runs the handler installed at mount.  The [disabled]
    attributes of the buttons are not modelled: every event is accepted in
    every state, which can only enlarge the set of reachable states. *)
Definition handler (e : Event) (current : State) : M unit :=
  match e with
  | ChannelMessage decoded => websocket_onmessage decoded
  | ChannelOpen => websocket_onopen
  | ChannelClose => websocket_onclose
  | ChannelError err => websocket_onerror err
  | GoalEdited text => setResearchGoal text
  | MaxIterationsEdited parsed => setMaxIterations (orOne parsed)
  | HypothesesPerIterationEdited parsed => setHypothesesPerIteration (orOne parsed)
  | DomainTimerFired => void (detectDomain_begin current)
  | DomainRequestSettled o => detectDomain_settle o
  | StartClicked now => void (startResearch_begin current now)
  | StartRequestSettled o => startResearch_settle o
  | StopClicked => stopResearch
  | ResetClicked => resetSession
  end.

Definition step (w : World) (e : Event) : World := snd (handler e (react w) w).

Definition run (es : list Event) (w : World) : World := foldl step w es.

Definition mounted : World := mkWorld initialState [] false.

Definition reachable (w : World) : Prop := ∃ es, w = run es mounted.

(** ** The progress map *)

Definition agentNames : list string := ["generation"; "reflection"; "ranking"].
Definition statusNames : list string := ["pending"; "running"; "completed"; "error"].

Definition is_name (names : list string) (v : value) : bool :=
  match v with
  | VStr s => bool_decide (s ∈ names)
  | _ => false
  end.

(** The progress map has exactly the three agent keys, each with one of the
    four statuses. *)
Definition progress_ok (p : obj) : Prop :=
  dom p = list_to_set agentNames
  ∧ ∀ k v, p !! k = Some v → is_name statusNames v = true.

(** An [agent_update] that writes the progress map (truthy [agent] and
    [status]) names, up to letter case, one of the three agents and one of
    the four statuses.  Any other message satisfies the predicate. *)
Definition names_known_agent (m : value) : bool :=
  if strict_eq (get_def m "type") (VStr "agent_update")
     && truthy (get_def m "agent") && truthy (get_def m "status")
  then match toLowerCase (get_def m "agent") with
       | Some a => bool_decide (a ∈ agentNames)
       | None => false
       end && is_name statusNames (get_def m "status")
  else true.

Definition known_agents (e : Event) : bool :=
  match e with
  | ChannelMessage (Some m) => names_known_agent m
  | _ => true
  end.

(** The message of a failed request: rejection, non-success status, or a
    body that does not decode.  [None] for a success. *)
Definition failure_message (o : FetchOutcome) : option string :=
  match o with
  | Rejected e => Some (exn_message e)
  | Responded status body =>
      if response_ok status then
        match body with
        | inl e => Some (exn_message e)
        | inr _ => None
        end
      else Some ("HTTP error! status: " ++ decimal status)%string
  end.

(** The states reachable through events that all satisfy [ok]. *)
Definition reachable_by (ok : Event → bool) (w : World) : Prop :=
  ∃ es, Forall (λ e, ok e = true) es ∧ w = run es mounted.

(** What is kept true along the runs that name known agents only: the
    progress map is well formed and no render has failed. *)
Definition progress_inv (w : World) : Prop :=
  progress_ok (progress (react w)) ∧ renderError w = false.

(** A computation keeps [I] true, whether it returns or raises. *)
Definition preserves {A} (I : World → Prop) (c : M A) : Prop :=
  ∀ w, I w → I (snd (c w)).

(** ** Sample inputs *)

(** A host on which no string denotes a number. *)
Definition plainHost : Host :=
  {| StringToNumber := λ _, PrimFloat.nan; ObjectToString := λ _, ""%string |}.

(** An object literal. *)
Definition object (fields : list (string * value)) : value :=
  VObj (list_to_map fields).

Definition scored (id : string) (score : float) : obj :=
  list_to_map [("id", VStr id); ("review", VStr "reviewed"); ("score", VNum score);
               ("isProcessing", VBool false)].


(** Channel messages as the service encodes them. *)
Definition agentUpdate (agent status : string) (data : value) : value :=
  object [("type", VStr "agent_update"); ("agent", VStr agent);
          ("status", VStr status); ("data", data)].

Definition sessionUpdate (event_type : string) (data : value) : value :=
  object [("type", VStr "session_update"); ("event_type", VStr event_type);
          ("data", data)].

Definition iterationStart (n : float) : value :=
  sessionUpdate "iteration_start" (object [("iteration", VNum n)]).

(** Generation of hypothesis h1 in iteration 1, and its review. *)
Definition generationH1 : value :=
  agentUpdate "generation" "completed"
    (object [("hypothesis", object [("id", VStr "h1"); ("iteration", VNum 1);
                                     ("content", VStr "a conjecture")])]).

Definition reflectionOk : value :=
  agentUpdate "reflection" "completed"
    (object [("review", object [("review", VStr "ok"); ("score", VNum 0.9)])]).

Definition h1Reviewed : obj :=
  list_to_map [("id", VStr "h1"); ("iteration", VNum 1);
               ("content", VStr "a conjecture"); ("review", VStr "ok");
               ("score", VNum 0.9); ("isProcessing", VBool false)].

(** A hypothesis generated before any iteration has started, carrying a
    provisional score, and a review whose score is 0. *)
Definition generationH0 : value :=
  agentUpdate "generation" "completed"
    (object [("hypothesis", object [("id", VStr "h0"); ("iteration", VNum 0);
                                     ("score", VNum 0.5)])]).

Definition reviewZero : value :=
  object [("review", VStr "unsupported"); ("score", VNum 0)].

Definition reflectionZero : value :=
  agentUpdate "reflection" "completed" (object [("review", reviewZero)]).

Definition rankedPair : list value :=
  [object [("id", VStr "h1"); ("review", VStr "ok"); ("score", VNum 0.9);
           ("rank", VNum 1)];
   object [("id", VStr "h2"); ("review", VStr "thin"); ("score", VNum 0.4);
           ("rank", VNum 2); ("isProcessing", VBool true)]].

Definition rankingDone : value :=
  agentUpdate "ranking" "completed" (object [("ranked_hypotheses", VArr rankedPair)]).


(** An update from a stage the front end does not know. *)
Definition evolutionRunning : value :=
  agentUpdate "evolution" "running" (object []).

Definition researchStarted : value := sessionUpdate "research_started" (object []).

(** An update whose [agent] is a number. *)
Definition numericAgent : value :=
  object [("type", VStr "agent_update"); ("agent", VNum 7);
          ("status", VStr "running")].

Definition serverError : FetchOutcome :=
  Responded 500 (inr (object [("detail", VStr "Internal Server Error")])).

Definition accepted : FetchOutcome :=
  Responded 200 (inr (object [("status", VStr "started")])).

(** The user types a question; the debounce timer fires; the inference
    request is answered with status 500. *)
Definition failedInference : list Event :=
  [GoalEdited "How do cells repair DNA damage?"; DomainTimerFired;
   DomainRequestSettled serverError].

(** A session is started and stopped locally while the service keeps
    working and reports a running agent; the next start request is answered
    with status 500. *)
Definition failedRestart : list Event :=
  [ChannelOpen; GoalEdited "Can aspirin reduce stroke risk?";
   StartClicked 1762128000000; StartRequestSettled accepted;
   ChannelMessage (Some researchStarted); StopClicked;
   ChannelMessage (Some (agentUpdate "generation" "running" (object [])));
   StartClicked 1762128060000; StartRequestSettled serverError].

(** One full iteration as the service reports it. *)
Definition oneIteration : list Event :=
  [ChannelOpen; ChannelMessage (Some researchStarted);
   ChannelMessage (Some (iterationStart 1));
   ChannelMessage (Some (agentUpdate "generation" "running" (object [])));
   ChannelMessage (Some generationH1); ChannelMessage (Some reflectionOk);
   ChannelMessage (Some rankingDone); ChannelMessage None; StopClicked].

(** Four hypotheses: two ready ones tie at 0.5 around a ready one at 0.9,
    and one is still being processed. *)
Definition tiedState : State :=
  mkState None "" [scored "a" 0.5; scored "b" 0.9; scored "c" 0.5;
                   <["isProcessing" := VBool true]> (scored "d" 0.7)]
    false VNull "idle" VNull false 3 1 true (VStr "") (VNum 0) pendingProgress false.

(** ** What ResearchSession renders *)

(** [disabled={!researchGoal.trim() || !wsConnected}] on the start button. *)
Definition startDisabled (s : State) : bool :=
  negb (truthy (VStr (trim (researchGoal s)))) || negb (wsConnected s).

(** The session badge: [sessionId.substring(8)]. *)
Definition sessionBadge (id : string) : string :=
  String.substring 8 (String.length id - 8) id.

(** [(isStarted || completedHypotheses.length > 0) && <AgentProgress .../>] *)
Definition showAgentProgress (s : State) : bool :=
  isStarted s || Nat.ltb 0 (length (completedHypotheses s)).

(** [processingCount > 0 && ...] *)
Definition showProcessing (s : State) : bool := Nat.ltb 0 (processingCount s).

(** [completedHypotheses.length > 0 && ...] *)
Definition showHypotheses (s : State) : bool :=
  Nat.ltb 0 (length (completedHypotheses s)).

(** [!isStarted && completedHypotheses.length === 0 && sessionStatus === 'idle'] *)
Definition showReadyMessage (s : State) : bool :=
  negb (isStarted s) && Nat.eqb (length (completedHypotheses s)) 0
  && String.eqb (sessionStatus s) "idle".

(** ** AgentProgress *)

(** [getAgentStatus]; [agentName] is one of the names of [agents], none of
    which a prototype defines. *)
Definition getAgentStatus (progress : value) (agentName : string) : value :=
  if negb (truthy progress) then VStr "pending"
  else if negb (truthy (get_def progress agentName)) then VStr "pending"
  else js_or (get_def (get_def progress agentName) "status") (VStr "pending").

Definition getStatusColor (status : value) : string :=
  if strict_eq status (VStr "running") then "#3b82f6"
  else if strict_eq status (VStr "completed") then "#10b981"
  else if strict_eq status (VStr "error") then "#ef4444"
  else "#9ca3af".

Definition getStatusLabel (status : value) : string :=
  if strict_eq status (VStr "running") then "Running"
  else if strict_eq status (VStr "completed") then "Completed"
  else if strict_eq status (VStr "error") then "Error"
  else "Pending".

(** [currentAgent === agent.name && isRunning] *)
Definition isActive (currentAgent : value) (isRunning : bool) (name : string) : bool :=
  strict_eq currentAgent (VStr name) && isRunning.

(** The card of one agent as ResearchSession has it rendered: its status
    label, its colour, and whether it is highlighted. *)
Definition agentCard (s : State) (name : string) : string * string * bool :=
  let status := getAgentStatus (VObj (progress s)) name in
  (getStatusLabel status, getStatusColor status,
   isActive (currentAgent s) (isRunning s) name).

(** ** App: the health probe *)

(** [backendHealth] once [checkBackendHealth] has settled; the body of the
    response is not read. *)
Definition checkBackendHealth (o : FetchOutcome) : string :=
  match o with
  | Rejected _ => "error"
  | Responded status _ => if response_ok status then "healthy" else "error"
  end.

(** ** Vocabulary of the further properties *)

(** A handler keeps a property of the state cells, whether it returns or
    raises. *)
Definition keeps {A} (J : State → Prop) (c : M A) : Prop :=
  preserves (λ w, J (react w)) c.

Definition statusValues : list string := ["idle"; "running"; "completed"; "error"].

(** A stored hypothesis carries [isProcessing] as a boolean. *)
Definition flagged (h : obj) : Prop := ∃ b, h !! "isProcessing" = Some (VBool b).

(** Reading a decimal numeral back. *)
Definition parseDecimal (s : string) : option N :=
  match NilZero.uint_of_string s with
  | Some d => Some (N.of_uint d)
  | None => None
  end.

(** [a] may stand before [b] in a list ordered by score, highest first: both
    scores are numbers and that of [b] is not above that of [a]. *)
Definition noLowerScore (a b : obj) : Prop :=
  ∃ x y, field a "score" = VNum x ∧ field b "score" = VNum y
         ∧ PrimFloat.leb y x = true.

(** The scores of a list of hypotheses are numbers, as the data model has
    them. *)
Definition numericScores (l : list obj) : Prop :=
  Forall (λ h, ∃ x, field h "score" = VNum x) l.

(** The cells that no channel message writes. *)
Definition controlCells (s : State) :=
  (sessionId s, researchGoal s, maxIterations s, hypothesesPerIteration s,
   wsConnected s, domainContext s, domainDetectionLoading s).

(** What the channel's life-cycle events make of the connection flag. *)
Definition connectedStep (connected : bool) (e : Event) : bool :=
  match e with
  | ChannelOpen => true
  | ChannelClose | ChannelError _ => false
  | _ => connected
  end.

Definition connectedAfter (es : list Event) : bool := foldl connectedStep false es.

(** The cells of the session state machine. *)
Definition sessionCells (s : State) :=
  (isStarted s, sessionStatus s, error s, iteration s).

(** ** Vocabulary of the proofs about numbers *)

(** The sign of a number that is not NaN. *)
Definition sf_sign_is (s : bool) (f : spec_float) : Prop :=
  match f with
  | S754_zero s' | S754_infinity s' | S754_finite s' _ _ => s' = s
  | S754_nan => True
  end.

(** The order of the non-NaN numbers, as a lexicographic key. *)
Definition sf_key (f : spec_float) : Z * Z * Z :=
  match f with
  | S754_infinity true => (-2, 0, 0)
  | S754_finite true m e => (-1, - e, Z.neg m)
  | S754_zero _ | S754_nan => (0, 0, 0)
  | S754_finite false m e => (1, e, Z.pos m)
  | S754_infinity false => (2, 0, 0)
  end%Z.

Definition lex3 (a b : Z * Z * Z) : comparison :=
  let '(c1, e1, m1) := a in
  let '(c2, e2, m2) := b in
  match (c1 ?= c2)%Z with
  | Eq => match (e1 ?= e2)%Z with Eq => (m1 ?= m2)%Z | r => r end
  | r => r
  end.

(** * Properties *)

(** ** Numbers *)

Lemma binary_round_sign s m e :
  sf_sign_is s (SpecFloat.binary_round prec emax s m e).
Proof.
  unfold binary_round. destruct (shl_align m e _) as [mz ez].
  unfold binary_round_aux.
  destruct (shr_fexp prec emax (Z.pos mz) ez loc_Exact) as [r1 e1].
  destruct (shr_fexp prec emax _ e1 loc_Exact) as [r2 e2].
  destruct (shr_m r2); try exact I; try reflexivity.
  destruct (_ <=? _)%Z; reflexivity.
Qed.

Lemma negative_not_positive f :
  sf_sign_is true f → SFltb (S754_zero false) f = false.
Proof. destruct f as [s|s| |s m e]; simpl; intros; subst; reflexivity. Qed.

Lemma normalize_opp_not_positive d e :
  SFltb (S754_zero false) (binary_normalize prec emax d e false) = true →
  SFltb (S754_zero false) (binary_normalize prec emax (- d) e false) = false.
Proof.
  destruct d as [|p|p]; simpl.
  - cbv. congruence.
  - intros _. apply negative_not_positive, binary_round_sign.
  - intros Hp. rewrite negative_not_positive in Hp by apply binary_round_sign.
    discriminate.
Qed.

Lemma SFsub_positive_flip a b :
  SFltb (S754_zero false) (SFsub prec emax a b) = true →
  SFltb (S754_zero false) (SFsub prec emax b a) = false.
Proof.
  destruct a as [sa|sa| |sa ma ea], b as [sb|sb| |sb mb eb];
    try (unfold SFsub; rewrite (Z.min_comm eb ea);
         set (A := cond_Zopp sa _); set (B := cond_Zopp sb _);
         replace (B - A)%Z with (- (A - B))%Z by lia;
         apply normalize_opp_not_positive);
    try (cbv; congruence);
    try (destruct sa; cbv; congruence); try (destruct sb; cbv; congruence);
    destruct sa, sb; cbv; congruence.
Qed.

(** When [x - y] is positive, [y - x] is not. *)
Lemma sub_positive_flip x y :
  PrimFloat.ltb 0 (PrimFloat.sub x y) = true →
  PrimFloat.ltb 0 (PrimFloat.sub y x) = false.
Proof. rewrite !ltb_spec, !sub_spec. apply SFsub_positive_flip. Qed.

(** [x - x] is 0 or NaN, never positive. *)
Lemma sub_diag_not_positive x : PrimFloat.ltb 0 (PrimFloat.sub x x) = false.
Proof.
  destruct (PrimFloat.ltb 0 (PrimFloat.sub x x)) eqn:E; [|reflexivity].
  pose proof (sub_positive_flip _ _ E). congruence.
Qed.

Lemma SFcompare_key a b :
  a ≠ S754_nan → b ≠ S754_nan → SFcompare a b = Some (lex3 (sf_key a) (sf_key b)).
Proof.
  intros Ha Hb.
  destruct a as [sa|sa| |sa ma ea], b as [sb|sb| |sb mb eb]; try congruence;
    try (destruct sa; reflexivity); try (destruct sb; reflexivity);
    try (destruct sa, sb; reflexivity).
  destruct sa, sb; try reflexivity; simpl.
  rewrite Z.compare_opp. rewrite (Z.compare_antisym eb ea).
  destruct (eb ?= ea)%Z; reflexivity.
Qed.

Lemma lex3_Lt a b :
  lex3 a b = Lt ↔
  (a.1.1 < b.1.1
   ∨ (a.1.1 = b.1.1 ∧ (a.1.2 < b.1.2 ∨ (a.1.2 = b.1.2 ∧ a.2 < b.2))))%Z.
Proof.
  destruct a as [[a1 a2] a3], b as [[b1 b2] b3]. unfold lex3. simpl.
  destruct (Z.compare_spec a1 b1), (Z.compare_spec a2 b2), (Z.compare_spec a3 b3);
    split; intros; try congruence; try lia.
Qed.

Lemma lex3_not_Gt a b :
  lex3 a b ≠ Gt ↔
  (a.1.1 < b.1.1
   ∨ (a.1.1 = b.1.1 ∧ (a.1.2 < b.1.2 ∨ (a.1.2 = b.1.2 ∧ a.2 ≤ b.2))))%Z.
Proof.
  destruct a as [[a1 a2] a3], b as [[b1 b2] b3]. unfold lex3. simpl.
  destruct (Z.compare_spec a1 b1), (Z.compare_spec a2 b2), (Z.compare_spec a3 b3);
    split; intros; try congruence; try lia.
Qed.

Lemma SFcompare_Some a b c :
  SFcompare a b = Some c → a ≠ S754_nan ∧ b ≠ S754_nan.
Proof. destruct a, b; simpl; try congruence; split; congruence. Qed.

(** [a <= x] and [x < b] give [a < b]. *)
Lemma leb_ltb_trans a x b :
  PrimFloat.leb a x = true → PrimFloat.ltb x b = true → PrimFloat.ltb a b = true.
Proof.
  rewrite leb_spec, !ltb_spec. unfold SFleb, SFltb.
  destruct (SFcompare (Prim2SF a) (Prim2SF x)) as [c1|] eqn:E1; [|congruence].
  destruct (SFcompare (Prim2SF x) (Prim2SF b)) as [c2|] eqn:E2; [|congruence].
  destruct (SFcompare_Some _ _ _ E1) as [Ha Hx].
  destruct (SFcompare_Some _ _ _ E2) as [_ Hb].
  rewrite SFcompare_key in E1, E2 |- * by assumption.
  intros H1 H2.
  assert (lex3 (sf_key (Prim2SF a)) (sf_key (Prim2SF x)) ≠ Gt) as L1
    by (destruct c1; congruence).
  assert (lex3 (sf_key (Prim2SF x)) (sf_key (Prim2SF b)) = Lt) as L2
    by (destruct c2; congruence).
  apply lex3_not_Gt in L1. apply lex3_Lt in L2.
  assert (lex3 (sf_key (Prim2SF a)) (sf_key (Prim2SF b)) = Lt) as L3
    by (apply lex3_Lt; lia).
  rewrite L3. reflexivity.
Qed.

(** A number below [lo] is not at or above any [hi] that is not below [lo]. *)
Lemma below_excludes lo hi x :
  PrimFloat.ltb hi lo = false → PrimFloat.ltb x lo = true →
  PrimFloat.leb hi x = false.
Proof.
  intros Hc Hx. destruct (PrimFloat.leb hi x) eqn:E; [|reflexivity].
  pose proof (leb_ltb_trans _ _ _ E Hx). congruence.
Qed.

(** ** The sign of a difference *)

Lemma digits2_pos_size m : digits2_pos m = Pos.size m.
Proof. induction m as [m IH|m IH|]; simpl; congruence. Qed.

Lemma digits2_bounds m :
  (2 ^ (Z.pos (digits2_pos m) - 1) ≤ Z.pos m < 2 ^ Z.pos (digits2_pos m))%Z.
Proof.
  rewrite digits2_pos_size. split.
  - pose proof (Pos.size_le m) as H.
    assert (2 ^ Z.pos (Pos.size m) ≤ 2 * Z.pos m)%Z as H'.
    { change 2%Z with (Z.pos 2) at 1. rewrite <- Pos2Z.inj_pow. exact H. }
    replace (Z.pos (Pos.size m)) with (Z.succ (Z.pos (Pos.size m) - 1)) in H' by lia.
    rewrite Z.pow_succ_r in H' by lia. lia.
  - pose proof (Pos.size_gt m) as H.
    change 2%Z with (Z.pos 2). rewrite <- Pos2Z.inj_pow. exact H.
Qed.

Lemma iter_xO_value m d : Z.pos (Pos.iter xO m d) = (Z.pos m * 2 ^ Z.pos d)%Z.
Proof.
  pose proof (Zpower.shift_pos_correct d m) as H. unfold Zpower.shift_pos in H.
  rewrite H, Zpower.Zpower_pos_nat, Zpower.Zpower_nat_Z, positive_nat_Z. lia.
Qed.

Lemma shl_align_value m e ez :
  (ez ≤ e)%Z →
  Z.pos (fst (shl_align m e ez)) = (Z.pos m * 2 ^ (e - ez))%Z
  ∧ snd (shl_align m e ez) = ez.
Proof.
  intros He. unfold shl_align. destruct (ez - e)%Z as [|p|p] eqn:E; simpl.
  - replace (e - ez)%Z with 0%Z by lia. split; lia.
  - lia.
  - rewrite iter_xO_value. replace (e - ez)%Z with (Z.pos p) by lia. split; reflexivity.
Qed.

Lemma shr_1_m mrs : (0 ≤ shr_m mrs)%Z → shr_m (shr_1 mrs) = (shr_m mrs / 2)%Z.
Proof.
  destruct mrs as [m r s]. simpl. intros Hm.
  destruct m as [|[p|p|]|p]; simpl; try reflexivity; try lia.
  - rewrite Pos2Z.inj_xI. apply Z.div_unique with 1%Z; lia.
  - rewrite Pos2Z.inj_xO. apply Z.div_unique with 0%Z; lia.
Qed.

Lemma iter_shr_1_m p mrs :
  (0 ≤ shr_m mrs)%Z →
  shr_m (SpecFloat.iter_pos shr_1 p mrs) = (shr_m mrs / 2 ^ Z.pos p)%Z.
Proof.
  revert mrs. induction p as [p IH|p IH|]; intros mrs Hm; simpl.
  - assert (0 ≤ shr_m (shr_1 mrs))%Z as H1
        by (rewrite shr_1_m by assumption; apply Z.div_pos; lia).
    assert (0 ≤ shr_m (SpecFloat.iter_pos shr_1 p (shr_1 mrs)))%Z as H2
        by (rewrite IH by assumption; apply Z.div_pos; lia).
    rewrite IH, IH, shr_1_m by assumption.
    rewrite !Z.div_div by lia. f_equal.
    rewrite Pos2Z.inj_xI, Z.pow_add_r, Z.pow_mul_r by lia.
    change (2 ^ 2)%Z with 4%Z. rewrite Z.pow_1_r.
    replace (4 ^ Z.pos p)%Z with (2 ^ Z.pos p * 2 ^ Z.pos p)%Z; [lia|].
    rewrite <- Z.pow_add_r by lia. replace (Z.pos p + Z.pos p)%Z with (2 * Z.pos p)%Z by lia.
    by rewrite Z.pow_mul_r by lia.
  - assert (0 ≤ shr_m (SpecFloat.iter_pos shr_1 p mrs))%Z as H2
        by (rewrite IH by assumption; apply Z.div_pos; lia).
    rewrite IH, IH by assumption. rewrite Z.div_div by lia. f_equal.
    rewrite Pos2Z.inj_xO. rewrite <- Z.pow_add_r by lia. f_equal. lia.
  - rewrite shr_1_m by assumption. by rewrite Z.pow_1_r.
Qed.

Lemma shr_record_of_loc_m m l : shr_m (shr_record_of_loc m l) = m.
Proof. destruct l as [|[]]; reflexivity. Qed.

(** Shifting a positive mantissa down to its format exponent leaves a
    positive mantissa, when the exponent is not below the least one. *)
Lemma shr_fexp_positive M e l :
  (emin ≤ e)%Z →
  ∃ M', shr_m (fst (shr_fexp prec emax (Z.pos M) e l)) = Z.pos M'
        ∧ (emin ≤ snd (shr_fexp prec emax (Z.pos M) e l))%Z.
Proof.
  intros He. unfold shr_fexp, shr. simpl Zdigits2.
  pose proof (digits2_bounds M) as [Hlo _].
  set (d := Z.pos (digits2_pos M)) in *.
  destruct (fexp prec emax (d + e) - e)%Z as [|p|p] eqn:E; simpl.
  - rewrite shr_record_of_loc_m. exists M. split; [reflexivity|assumption].
  - rewrite iter_shr_1_m by (rewrite shr_record_of_loc_m; lia).
    rewrite shr_record_of_loc_m.
    assert (Z.pos p = d - prec)%Z as Hp.
    { unfold fexp in E. change prec with 53%Z in *. lia. }
    assert (1 ≤ Z.pos M / 2 ^ Z.pos p)%Z as H1.
    { apply Z.div_le_lower_bound; [lia|]. rewrite Z.mul_1_r.
      etransitivity; [|exact Hlo]. apply Z.pow_le_mono_r; [lia|].
      rewrite Hp. change prec with 53%Z. lia. }
    destruct (Z.pos M / 2 ^ Z.pos p)%Z as [|q|q]; try lia.
    exists q. split; [reflexivity|lia].
  - rewrite shr_record_of_loc_m. exists M. split; [reflexivity|assumption].
Qed.

Lemma round_nearest_even_positive M l :
  ∃ M', round_nearest_even (Z.pos M) l = Z.pos M'.
Proof.
  destruct l as [|[]]; simpl; eauto; destruct M; simpl; eauto.
Qed.

(** Rounding a positive number at an exponent of the format gives a
    positive number or the positive infinity, never a zero. *)
Lemma binary_round_aux_positive M e l :
  (emin ≤ e)%Z →
  SFltb (S754_zero false) (binary_round_aux prec emax false (Z.pos M) e l) = true.
Proof.
  intros He. unfold binary_round_aux.
  destruct (shr_fexp_positive M e l He) as (M1 & H1 & He1).
  destruct (shr_fexp prec emax (Z.pos M) e l) as [r1 e1]. simpl in H1, He1.
  rewrite H1.
  destruct (round_nearest_even_positive M1 (loc_of_shr_record r1)) as [M2 H2].
  rewrite H2.
  destruct (shr_fexp_positive M2 e1 loc_Exact He1) as (M3 & H3 & _).
  destruct (shr_fexp prec emax (Z.pos M2) e1 loc_Exact) as [r2 e2]. simpl in H3.
  rewrite H3. destruct (e2 <=? emax - prec)%Z; reflexivity.
Qed.

Lemma binary_round_positive M e :
  (emin ≤ e)%Z →
  SFltb (S754_zero false) (binary_round prec emax false M e) = true.
Proof.
  intros He. unfold binary_round.
  destruct (shl_align M e _) as [mz ez] eqn:E.
  apply binary_round_aux_positive.
  unfold shl_align in E.
  destruct (fexp prec emax (Z.pos (digits2_pos M) + e) - e)%Z eqn:E';
    injection E as <- <-; try assumption.
  unfold fexp. lia.
Qed.

(** What [bounded] says of a mantissa: at most 53 digits, exactly 53 above
    the least exponent. *)
Lemma bounded_mantissa m e :
  bounded prec emax m e = true →
  (emin ≤ e)%Z ∧ (Z.pos m < 2 ^ 53)%Z ∧ (emin < e → 2 ^ 52 ≤ Z.pos m)%Z.
Proof.
  unfold bounded, canonical_mantissa, fexp. intros H.
  apply andb_true_iff in H as [H _]. apply Z.eqb_eq in H.
  pose proof (digits2_bounds m) as [Hlo Hhi].
  set (d := Z.pos (digits2_pos m)) in *.
  change prec with 53%Z in *. change emin with (-1074)%Z in *.
  split; [lia|]. split.
  - eapply Z.lt_le_trans; [exact Hhi|]. apply Z.pow_le_mono_r; lia.
  - intros He. assert (d = 53)%Z as Hd by lia. rewrite Hd in Hlo. exact Hlo.
Qed.

(** Two finite numbers compare as their mantissas aligned at the lower
    exponent. *)
Lemma SFcompare_aligned sa ma ea sb mb eb :
  bounded prec emax ma ea = true → bounded prec emax mb eb = true →
  SFcompare (S754_finite sb mb eb) (S754_finite sa ma ea)
  = Some (cond_Zopp sb (Z.pos (fst (shl_align mb eb (Z.min ea eb))))
          ?= cond_Zopp sa (Z.pos (fst (shl_align ma ea (Z.min ea eb)))))%Z.
Proof.
  intros Ha Hb.
  destruct (bounded_mantissa _ _ Ha) as (Hea & Hma & Hna).
  destruct (bounded_mantissa _ _ Hb) as (Heb & Hmb & Hnb).
  destruct (shl_align_value ma ea (Z.min ea eb)) as [-> _]; [lia|].
  destruct (shl_align_value mb eb (Z.min ea eb)) as [-> _]; [lia|].
  set (A := (Z.pos ma * 2 ^ (ea - Z.min ea eb))%Z).
  set (B := (Z.pos mb * 2 ^ (eb - Z.min ea eb))%Z).
  assert (0 < A ∧ 0 < B)%Z as [HA HB].
  { split; apply Z.mul_pos_pos; try lia; apply Z.pow_pos_nonneg; lia. }
  assert (match (eb ?= ea)%Z with
          | Lt => B < A
          | Gt => A < B
          | Eq => A = Z.pos ma ∧ B = Z.pos mb
          end)%Z as Hcmp.
  { unfold A, B. destruct (Z.compare_spec eb ea) as [->|Hlt|Hlt].
    - rewrite Z.min_id, Z.sub_diag. simpl. lia.
    - rewrite Z.min_r by lia. rewrite Z.sub_diag, Z.pow_0_r, Z.mul_1_r.
      specialize (Hna ltac:(lia)).
      assert (2 ^ 1 ≤ 2 ^ (ea - eb))%Z by (apply Z.pow_le_mono_r; lia).
      change (2 ^ 1)%Z with 2%Z in *. change (2 ^ 53)%Z with (2 ^ 52 * 2)%Z in Hmb.
      nia.
    - rewrite Z.min_l by lia. rewrite Z.sub_diag, Z.pow_0_r, Z.mul_1_r.
      specialize (Hnb ltac:(lia)).
      assert (2 ^ 1 ≤ 2 ^ (eb - ea))%Z by (apply Z.pow_le_mono_r; lia).
      change (2 ^ 1)%Z with 2%Z in *. change (2 ^ 53)%Z with (2 ^ 52 * 2)%Z in Hma.
      nia. }
  unfold SFcompare. f_equal. symmetry.
  destruct sb, sa; unfold cond_Zopp.
  - rewrite Z.compare_opp. rewrite (Z.compare_antisym B A).
    destruct (eb ?= ea)%Z.
    + destruct Hcmp as [-> ->]. reflexivity.
    + apply Z.compare_lt_iff in Hcmp. by rewrite Hcmp.
    + apply Z.compare_gt_iff in Hcmp. by rewrite Hcmp.
  - apply Z.compare_lt_iff. lia.
  - apply Z.compare_gt_iff. lia.
  - destruct (eb ?= ea)%Z.
    + destruct Hcmp as [-> ->]. reflexivity.
    + by apply Z.compare_lt_iff.
    + by apply Z.compare_gt_iff.
Qed.

(** [a - b] is positive exactly when [b < a]: a difference of two numbers
    that differ is never rounded to zero, and a NaN is on neither side. *)
Lemma SFsub_positive a b :
  valid_binary a = true → valid_binary b = true →
  SFltb (S754_zero false) (SFsub prec emax a b) = SFltb b a.
Proof.
  intros Ha Hb.
  destruct a as [sa|sa| |sa ma ea], b as [sb|sb| |sb mb eb];
    try (destruct sa; reflexivity); try (destruct sb; reflexivity);
    try (destruct sa, sb; reflexivity); try reflexivity.
  simpl in Ha, Hb. unfold SFltb at 2. rewrite (SFcompare_aligned _ _ _ _ _ _ Ha Hb).
  unfold SFsub.
  destruct (bounded_mantissa _ _ Ha) as (Hea & _).
  destruct (bounded_mantissa _ _ Hb) as (Heb & _).
  set (A := cond_Zopp sa _). set (B := cond_Zopp sb _).
  destruct (Z.compare_spec B A) as [E|E|E].
  - replace (A - B)%Z with 0%Z by lia. reflexivity.
  - destruct (A - B)%Z as [|p|p] eqn:D; try lia. simpl.
    apply binary_round_positive. lia.
  - destruct (A - B)%Z as [|p|p] eqn:D; try lia. simpl.
    apply negative_not_positive, binary_round_sign.
Qed.

(** The sign of a difference decides the order: [y - x] is positive exactly
    when [x < y], for all numbers (NaN and the infinities included). *)
Lemma sub_positive_iff_ltb x y :
  PrimFloat.ltb 0 (PrimFloat.sub y x) = PrimFloat.ltb x y.
Proof.
  rewrite !ltb_spec, sub_spec. apply SFsub_positive; apply Prim2SF_valid.
Qed.

(** ** The order of the numbers *)

Lemma lex3_antisym a b : lex3 b a = CompOpp (lex3 a b).
Proof.
  destruct a as [[a1 a2] a3], b as [[b1 b2] b3]. unfold lex3.
  rewrite (Z.compare_antisym a1 b1), (Z.compare_antisym a2 b2),
    (Z.compare_antisym a3 b3).
  destruct (a1 ?= b1)%Z, (a2 ?= b2)%Z, (a3 ?= b3)%Z; reflexivity.
Qed.

Lemma not_nan x : PrimFloat.is_nan x = false → Prim2SF x ≠ S754_nan.
Proof.
  unfold PrimFloat.is_nan. rewrite FloatAxioms.eqb_spec. intros H E. rewrite E in H.
  discriminate H.
Qed.

(** Among numbers other than NaN, [x < y] fails exactly when [y <= x]. *)
Lemma not_ltb_leb x y :
  PrimFloat.is_nan x = false → PrimFloat.is_nan y = false →
  PrimFloat.ltb x y = false → PrimFloat.leb y x = true.
Proof.
  intros Hx Hy. apply not_nan in Hx, Hy.
  rewrite ltb_spec, leb_spec. unfold SFltb, SFleb.
  rewrite !SFcompare_key by assumption.
  rewrite (lex3_antisym (sf_key (Prim2SF x)) (sf_key (Prim2SF y))).
  destruct (lex3 _ _); simpl; congruence.
Qed.

Lemma leb_trans z y x :
  PrimFloat.leb z y = true → PrimFloat.leb y x = true → PrimFloat.leb z x = true.
Proof.
  rewrite !leb_spec. unfold SFleb.
  destruct (SFcompare (Prim2SF z) (Prim2SF y)) as [c1|] eqn:E1; [|congruence].
  destruct (SFcompare (Prim2SF y) (Prim2SF x)) as [c2|] eqn:E2; [|congruence].
  destruct (SFcompare_Some _ _ _ E1) as [Hz Hy].
  destruct (SFcompare_Some _ _ _ E2) as [_ Hx].
  rewrite SFcompare_key in E1, E2 |- * by assumption.
  intros H1 H2.
  assert (lex3 (sf_key (Prim2SF z)) (sf_key (Prim2SF y)) ≠ Gt) as L1
    by (destruct c1; congruence).
  assert (lex3 (sf_key (Prim2SF y)) (sf_key (Prim2SF x)) ≠ Gt) as L2
    by (destruct c2; congruence).
  apply lex3_not_Gt in L1, L2.
  assert (lex3 (sf_key (Prim2SF z)) (sf_key (Prim2SF x)) ≠ Gt) as L3
    by (apply lex3_not_Gt; lia).
  destruct (lex3 (sf_key (Prim2SF z)) (sf_key (Prim2SF x)));
    [reflexivity|reflexivity|contradiction].
Qed.

Lemma truthy_number x :
  truthy (VNum x) = true → PrimFloat.is_nan x = false.
Proof.
  simpl. rewrite negb_true_iff, orb_false_iff. tauto.
Qed.

(** ** Score tiers *)

Section ScoreTiers.
Context `{Host}.

Lemma js_ge_num x c : js_ge (VNum x) c = PrimFloat.leb c x.
Proof. reflexivity. Qed.

Lemma tier_top x :
  PrimFloat.leb 0.8 x = true → tier (VNum x) = ("High Quality", "#059669").
Proof.
  intros Hx. unfold tier, getScoreLabel, getScoreColor.
  rewrite js_ge_num, Hx. reflexivity.
Qed.

Lemma tier_good x :
  PrimFloat.leb 0.6 x = true → PrimFloat.ltb x 0.8 = true →
  tier (VNum x) = ("Good Quality", "#d97706").
Proof.
  intros Hlo Hhi. unfold tier, getScoreLabel, getScoreColor.
  rewrite !js_ge_num, (below_excludes 0.8 0.8 x eq_refl Hhi), Hlo.
  reflexivity.
Qed.

Lemma tier_moderate x :
  PrimFloat.leb 0.4 x = true → PrimFloat.ltb x 0.6 = true →
  tier (VNum x) = ("Moderate Quality", "#dc2626").
Proof.
  intros Hlo Hhi. unfold tier, getScoreLabel, getScoreColor.
  rewrite !js_ge_num, (below_excludes 0.6 0.8 x eq_refl Hhi),
    (below_excludes 0.6 0.6 x eq_refl Hhi), Hlo.
  reflexivity.
Qed.

Lemma tier_low x :
  PrimFloat.ltb x 0.4 = true → tier (VNum x) = ("Needs Review", "#6b7280").
Proof.
  intros Hhi. unfold tier, getScoreLabel, getScoreColor.
  rewrite !js_ge_num, (below_excludes 0.4 0.8 x eq_refl Hhi),
    (below_excludes 0.4 0.6 x eq_refl Hhi),
    (below_excludes 0.4 0.4 x eq_refl Hhi).
  reflexivity.
Qed.

(** C9: the quality tier of a score is inclusive on the lower bound of
    each tier.  0.80 is "High Quality" and 0.799999 is "Good Quality";
    every score at or above 0.8 is in the top tier, every score in
    [0.6, 0.8) in the second, in [0.4, 0.6) in the third and in [0, 0.4) in
    the last, and the colour follows the label. *)
Theorem score_tier_boundaries :
  getScoreLabel (VNum 0.80) = "High Quality"
  ∧ getScoreLabel (VNum 0.799999) = "Good Quality"
  ∧ tier (VNum 0.6) = ("Good Quality", "#d97706")
  ∧ tier (VNum 0.4) = ("Moderate Quality", "#dc2626")
  ∧ tier (VNum 0) = ("Needs Review", "#6b7280")
  ∧ ∀ x : float,
      (PrimFloat.leb 0.8 x = true →
       tier (VNum x) = ("High Quality", "#059669"))
      ∧ (PrimFloat.leb 0.6 x = true → PrimFloat.ltb x 0.8 = true →
         tier (VNum x) = ("Good Quality", "#d97706"))
      ∧ (PrimFloat.leb 0.4 x = true → PrimFloat.ltb x 0.6 = true →
         tier (VNum x) = ("Moderate Quality", "#dc2626"))
      ∧ (PrimFloat.leb 0 x = true → PrimFloat.ltb x 0.4 = true →
         tier (VNum x) = ("Needs Review", "#6b7280")).
Proof.
  repeat split; try reflexivity.
  - apply tier_top.
  - apply tier_good.
  - apply tier_moderate.
  - intros _. apply tier_low.
Qed.
End ScoreTiers.

Lemma score_tier_boundaries_witness :
  @tier plainHost (VNum 0.7) = ("Good Quality", "#d97706").
Proof.
  apply (proj2 (proj2 (proj2 (proj2 (proj2 (@score_tier_boundaries plainHost)))))).
  - reflexivity.
  - reflexivity.
Defined.

(** ** The sort *)

Section ArraySortFacts.
Context {A : Type} (comparefn : A → A → float).

Lemma sort_insert_perm x l : Permutation (sort_insert comparefn x l) (x :: l).
Proof.
  induction l as [|y l IH]; simpl; [reflexivity|].
  destruct (goes_behind comparefn x y); [|reflexivity].
  rewrite IH. apply perm_swap.
Qed.

Lemma Array_sort_perm l : Permutation (Array_sort comparefn l) l.
Proof.
  induction l as [|x l IH]; simpl; [reflexivity|].
  rewrite sort_insert_perm. by constructor.
Qed.

Lemma Array_sort_of_sorted l :
  Sorted (in_order comparefn) l → Array_sort comparefn l = l.
Proof.
  induction 1 as [|x l _ IH Hhd]; [reflexivity|]. simpl.
  change (foldr (sort_insert comparefn) [] l) with (Array_sort comparefn l).
  rewrite IH. destruct Hhd as [|y l Hxy]; [reflexivity|]. simpl.
  by rewrite Hxy.
Qed.

Section Ordered.
(** [comparefn] never sends each of two elements behind the other. *)
Hypothesis no_cycle :
  ∀ x y, goes_behind comparefn x y = true → goes_behind comparefn y x = false.

Lemma sort_insert_sorted x l :
  Sorted (in_order comparefn) l → Sorted (in_order comparefn) (sort_insert comparefn x l).
Proof.
  induction l as [|y l IH]; simpl; intros Hs.
  - repeat constructor.
  - destruct (goes_behind comparefn x y) eqn:E.
    + inversion Hs as [|? ? Hl Hhd]; subst. constructor; [by apply IH|].
      destruct l as [|z l]; simpl.
      * constructor. by apply no_cycle.
      * destruct (goes_behind comparefn x z); constructor.
        -- by inversion Hhd.
        -- by apply no_cycle.
    + constructor; [assumption|]. by constructor.
Qed.

Lemma Array_sort_sorted l : Sorted (in_order comparefn) (Array_sort comparefn l).
Proof.
  induction l as [|x l IH]; simpl; [constructor|]. by apply sort_insert_sorted.
Qed.
End Ordered.

Section Stable.
(** A class [P] of elements that [comparefn] never reorders. *)
Variable P : A → bool.
Hypothesis ties :
  ∀ x y, P x = true → P y = true → goes_behind comparefn x y = false.



End Stable.
End ArraySortFacts.

(** ** The ready view *)

Lemma noLowerScore_trans a b c :
  noLowerScore a b → noLowerScore b c → noLowerScore a c.
Proof.
  intros (x & y & Ha & Hb & H1) (y' & z & Hb' & Hc & H2).
  rewrite Hb in Hb'. injection Hb' as <-.
  exists x, z. split; [assumption|]. split; [assumption|].
  by apply (leb_trans z y x).
Qed.

Lemma ready_is_ready l : Forall (λ h, isReady h = true) (List.filter isReady l).
Proof.
  apply Forall_forall. intros h Hh. apply list_elem_of_In, List.filter_In in Hh.
  tauto.
Qed.

Lemma ready_score_truthy h : isReady h = true → truthy (field h "score") = true.
Proof. unfold isReady. rewrite !andb_true_iff. tauto. Qed.

Section ReadyViewFacts.
Context `{Host}.

Lemma byScoreDescending_no_cycle a b :
  goes_behind byScoreDescending a b = true →
  goes_behind byScoreDescending b a = false.
Proof. apply sub_positive_flip. Qed.


(** On ready entries whose scores are numbers the comparator sends [a]
    behind [b] exactly when the score of [a] is below the score of [b]: a
    strict weak order, so the comparator is consistent. *)
Lemma byScoreDescending_numeric a b x y :
  isReady a = true → isReady b = true →
  field a "score" = VNum x → field b "score" = VNum y →
  goes_behind byScoreDescending a b = PrimFloat.ltb x y.
Proof.
  intros Ra Rb Ha Hb. apply ready_score_truthy in Ra, Rb.
  unfold goes_behind, byScoreDescending, js_sub, js_or.
  rewrite Ra, Rb, Ha, Hb. simpl ToNumber. apply sub_positive_iff_ltb.
Qed.

Lemma in_order_noLowerScore a b :
  isReady a = true → isReady b = true →
  (∃ x, field a "score" = VNum x) → (∃ y, field b "score" = VNum y) →
  in_order byScoreDescending a b ↔ noLowerScore a b.
Proof.
  intros Ra Rb [x Ha] [y Hb]. unfold in_order.
  rewrite (byScoreDescending_numeric a b x y) by assumption.
  pose proof (ready_score_truthy a Ra) as Tx. rewrite Ha in Tx.
  pose proof (ready_score_truthy b Rb) as Ty. rewrite Hb in Ty.
  apply truthy_number in Tx, Ty. split.
  - intros Hlt. exists x, y. split; [assumption|]. split; [assumption|].
    by apply not_ltb_leb.
  - intros (x' & y' & Ha' & Hb' & Hle).
    rewrite Ha in Ha'. injection Ha' as <-. rewrite Hb in Hb'. injection Hb' as <-.
    destruct (PrimFloat.ltb x y) eqn:E; [|reflexivity].
    assert (PrimFloat.ltb y y = true) as Hyy by apply (leb_ltb_trans y x y Hle E).
    rewrite <- sub_positive_iff_ltb, sub_diag_not_positive in Hyy. discriminate.
Qed.

(** A list of ready entries with numeric scores that the comparator leaves
    in place pairwise is in descending score order throughout. *)
Lemma sorted_by_score l :
  Forall (λ h, isReady h = true) l → numericScores l →
  Sorted (in_order byScoreDescending) l → StronglySorted noLowerScore l.
Proof.
  intros Hr Hn Hs. apply Sorted_StronglySorted.
  { intros a b c. apply noLowerScore_trans. }
  induction Hs as [|a l Hs IH Hhd]; [constructor|].
  apply Forall_cons in Hr as [Ra Hr]. apply Forall_cons in Hn as [Na Hn].
  constructor; [by apply IH|].
  destruct Hhd as [|b l Hab]; constructor.
  apply Forall_cons in Hr as [Rb _]. apply Forall_cons in Hn as [Nb _].
  by apply in_order_noLowerScore.
Qed.

Lemma descending_in_place l :
  Forall (λ h, isReady h = true) l → numericScores l →
  Sorted noLowerScore l → Array_sort byScoreDescending l = l.
Proof.
  intros Hr Hn Hs. apply Array_sort_of_sorted.
  induction Hs as [|a l Hs IH Hhd]; [constructor|].
  apply Forall_cons in Hr as [Ra Hr]. apply Forall_cons in Hn as [Na Hn].
  constructor; [by apply IH|].
  destruct Hhd as [|b l Hab]; constructor.
  apply Forall_cons in Hr as [Rb _]. apply Forall_cons in Hn as [Nb _].
  by apply in_order_noLowerScore.
Qed.

Lemma sortedHypotheses_ready s :
  numericScores (completedHypotheses s) →
  Forall (λ h, isReady h = true) (sortedHypotheses s)
  ∧ numericScores (sortedHypotheses s).
Proof.
  intros Hn. unfold sortedHypotheses, numericScores.
  split; eapply Permutation_Forall;
    try (symmetry; apply Array_sort_perm); [apply ready_is_ready|exact Hn].
Qed.

Lemma ready_view_sorted_by_score s :
  numericScores (completedHypotheses s) →
  StronglySorted noLowerScore (sortedHypotheses s).
Proof.
  intros Hnum. destruct (sortedHypotheses_ready s Hnum) as [Hr Hn].
  apply sorted_by_score; [assumption..|].
  apply Array_sort_sorted. intros x y. apply byScoreDescending_no_cycle.
Qed.

End ReadyViewFacts.


Lemma tiedState_numeric : numericScores (completedHypotheses tiedState).
Proof. repeat constructor; eexists; reflexivity. Qed.


(** The sample view: 0.9 first, then the two ties in their stored order. *)
Example tiedState_view :
  @sortedHypotheses plainHost tiedState = [scored "b" 0.9; scored "a" 0.5; scored "c" 0.5].
Proof. reflexivity. Qed.


(** ** Evaluating handlers *)

Ltac js_unfold :=
  unfold websocket_onmessage, onmessage, handleWebSocketMessage, handleAgentUpdate,
    handleSessionUpdate, websocket_onopen, websocket_onclose, websocket_onerror,
    startResearch_begin, startResearch_settle, startResearch_catch, stopResearch,
    resetSession, detectDomain_begin, detectDomain_settle,
    prop, typeError, when, void, log,
    setSessionId, setResearchGoal, setHypotheses, setIsStarted, setError,
    setSessionStatus, setDomainContext, setDomainDetectionLoading, setMaxIterations,
    setHypothesesPerIteration, setWsConnected, setCurrentAgent, setIteration,
    setProgressWith, setProgress, setIsRunning, update, try_catch, bind, ret, throw.

Ltac js_eval :=
  cbn [strict_eq String.eqb Ascii.eqb Bool.eqb negb andb orb fst snd
       react console renderError sessionId researchGoal hypotheses isStarted error
       sessionStatus domainContext domainDetectionLoading maxIterations
       hypothesesPerIteration wsConnected currentAgent iteration progress isRunning
       with_sessionId with_researchGoal with_hypotheses with_isStarted with_error
       with_sessionStatus with_domainContext with_domainDetectionLoading
       with_maxIterations with_hypothesesPerIteration with_wsConnected
       with_currentAgent with_iteration with_progress with_isRunning].

Lemma strict_eq_str v s : strict_eq v (VStr s) = true ↔ v = VStr s.
Proof.
  destruct v; simpl; try (split; congruence).
  rewrite String.eqb_eq. split; congruence.
Qed.

Lemma strict_eq_str_false v s : v ≠ VStr s → strict_eq v (VStr s) = false.
Proof.
  intros Hv. destruct (strict_eq v (VStr s)) eqn:E; [|reflexivity].
  apply strict_eq_str in E. contradiction.
Qed.

(** A value with one readable property is neither [undefined] nor [null]:
    all its properties can be read. *)
Lemma get_total m k v k' : get m k = Some v → ∃ v', get m k' = Some v'.
Proof. destruct m; simpl; try discriminate; eauto. Qed.

Lemma get_def_Some m k v : get m k = Some v → get_def m k = v.
Proof. unfold get_def. by intros ->. Qed.

(** ** Dispatcher *)

(** Whatever arrives, the handler on the channel returns: every exception
    raised while decoding or dispatching is caught and logged. *)
Lemma websocket_onmessage_returns decoded w :
  fst (websocket_onmessage decoded w) = Normal tt.
Proof.
  unfold websocket_onmessage, onmessage, try_catch.
  destruct (bind _ _ w) as [[[]|e] w']; reflexivity.
Qed.

(** C3: the handler installed on the channel never raises, whatever the
    payload.  A payload that does not decode, or whose [type] is neither
    [agent_update] nor [session_update] (a payload without readable [type]
    included), is logged and dropped: no state cell changes, no render
    fails, and the console gains at least one entry. *)
Theorem unrecognised_payload_dropped decoded w :
  fst (websocket_onmessage decoded w) = Normal tt
  ∧ ((decoded = None
      ∨ ∃ m, decoded = Some m
             ∧ get m "type" ≠ Some (VStr "agent_update")
             ∧ get m "type" ≠ Some (VStr "session_update")) →
     ∃ entries, entries ≠ []
       ∧ snd (websocket_onmessage decoded w)
         = mkWorld (react w) (console w ++ entries) (renderError w)).
Proof.
  split; [apply websocket_onmessage_returns|].
  intros [->|(m & -> & Ha & Hs)]; js_unfold; js_eval.
  - eexists. split; [|reflexivity]. discriminate.
  - destruct (get m "type") as [ty|]; js_eval.
    + rewrite !strict_eq_str_false by congruence. js_eval.
      eexists. split; [|rewrite <- app_assoc; reflexivity]. discriminate.
    + eexists. split; [|rewrite <- app_assoc; reflexivity]. discriminate.
Qed.

Lemma unrecognised_payload_dropped_witness :
  ∃ entries, entries ≠ []
    ∧ snd (websocket_onmessage (Some VNull) mounted)
      = mkWorld initialState (console mounted ++ entries) false.
Proof.
  apply (proj2 (unrecognised_payload_dropped (Some VNull) mounted)).
  right. exists VNull. repeat split; discriminate.
Defined.

(** What the handler cannot catch is an updater that raises later, while
    React renders: an update whose agent is not a string queues
    [prev => ({...prev, [agent.toLowerCase()]: status})], which fails there. *)
Example numeric_agent_fails_render :
  let r := websocket_onmessage (Some numericAgent) mounted in
  fst r = Normal tt ∧ renderError (snd r) = true
  ∧ currentAgent (react (snd r)) = VNum 7
  ∧ progress (react (snd r)) = pendingProgress.
Proof. repeat split. Qed.

(** ** Session events *)

Lemma iteration_start_sets it m d w :
  get m "type" = Some (VStr "session_update") →
  get m "event_type" = Some (VStr "iteration_start") →
  get m "data" = Some d → get d "iteration" = Some it → truthy it = true →
  websocket_onmessage (Some m) w
  = (Normal tt,
     mkWorld (with_progress pendingProgress (with_iteration it (react w)))
             (console w ++ [ConsoleLog "Received WebSocket message:" [m]])
             (renderError w)).
Proof.
  intros Ht He Hd Hi Hit. js_unfold. rewrite Ht. js_eval. rewrite He, Hd. js_eval.
  rewrite Hi, Hit. reflexivity.
Qed.

(** C6: whatever the progress map holds, the session event
    [iteration_start] with [iteration: 2] sets the iteration number to 2 and
    replaces the progress map by the one with the three entries
    [generation], [reflection] and [ranking] all [pending]. *)
Theorem iteration_start_resets_progress m d w :
  get m "type" = Some (VStr "session_update") →
  get m "event_type" = Some (VStr "iteration_start") →
  get m "data" = Some d → get d "iteration" = Some (VNum 2) →
  let w' := snd (websocket_onmessage (Some m) w) in
  iteration (react w') = VNum 2
  ∧ progress (react w') = pendingProgress
  ∧ progress (react w') !! "generation" = Some (VStr "pending")
  ∧ progress (react w') !! "reflection" = Some (VStr "pending")
  ∧ progress (react w') !! "ranking" = Some (VStr "pending")
  ∧ dom (progress (react w')) = list_to_set agentNames.
Proof.
  intros Ht He Hd Hi.
  rewrite (iteration_start_sets (VNum 2) m d w Ht He Hd Hi eq_refl).
  js_eval. repeat split; reflexivity.
Qed.

Lemma iteration_start_resets_progress_witness :
  let w := mkWorld (with_progress completedProgress initialState) [] false in
  let w' := snd (websocket_onmessage (Some (iterationStart 2)) w) in
  iteration (react w') = VNum 2 ∧ progress (react w') = pendingProgress.
Proof.
  intros w w'.
  destruct (iteration_start_resets_progress (iterationStart 2)
              (object [("iteration", VNum 2)]) w) as (H1 & H2 & _);
    try reflexivity.
  split; assumption.
Defined.

(** ** Hypothesis store *)

Lemma with_hypotheses_id s : with_hypotheses (hypotheses s) s = s.
Proof. by destruct s. Qed.

(** What a completed ranking update does to the state cells, whatever its
    payload: the current agent and the [ranking] progress entry are written,
    and the collection is either left as it is or replaced by a list that
    the message alone determines. *)
Lemma ranking_completed_effect m :
  get m "type" = Some (VStr "agent_update") →
  get m "agent" = Some (VStr "ranking") →
  get m "status" = Some (VStr "completed") →
  ∃ f : list obj → list obj,
    (f = id ∨ ∃ l, f = λ _, l)
    ∧ (∀ d l, get m "data" = Some d → get d "ranked_hypotheses" = Some (VArr l) →
       f = λ _, map markRanked l)
    ∧ ∀ w, react (snd (websocket_onmessage (Some m) w))
           = with_hypotheses (f (hypotheses (react w)))
               (with_progress (<["ranking" := VStr "completed"]> (progress (react w)))
                  (with_currentAgent (VStr "ranking") (react w))).
Proof.
  intros Ht Ha Hs.
  destruct (get_total m "type" _ "data" Ht) as [d Hd].
  destruct (get d "ranked_hypotheses") as [r|] eqn:Hr;
    [destruct (truthy r) eqn:Hv; [destruct r as [| | | | |l|]|]|].
  6: { exists (λ _, map markRanked l). split; [right; eauto|]. split.
       - intros d' l' Hd' Hl'. rewrite Hd in Hd'. injection Hd' as <-.
         rewrite Hr in Hl'. by injection Hl' as <-.
       - intros w. js_unfold. rewrite Ht, Ha, Hs, Hd. js_eval. rewrite Hr.
         reflexivity. }
  all: exists id; split; [by left|]; split;
    [ intros d' l' Hd' Hl'; rewrite Hd in Hd'; injection Hd' as <-;
      rewrite Hr in Hl'; try discriminate Hl'; injection Hl' as Hl';
      try discriminate Hl'; subst r; discriminate Hv
    | intros w; js_unfold; rewrite Ht, Ha, Hs, Hd; js_eval; rewrite Hr; js_eval;
      rewrite ?Hv; js_eval; unfold id;
      rewrite <- (with_hypotheses_id (with_progress _ _)) at 1; reflexivity ].
Qed.

(** C5: replaying one ranking-completed message leaves the state, and with
    it the ready subset, exactly as the first processing left it.  When the
    message carries the array [data.ranked_hypotheses], the collection after
    either processing is that array, whatever was stored before: it has the
    length of the array, and its entry at each position has [isProcessing]
    false and, for every other property name, exactly what the ranked entry
    at that position has (or lacks). *)
Theorem ranking_replay_idempotent m w :
  get m "type" = Some (VStr "agent_update") →
  get m "agent" = Some (VStr "ranking") →
  get m "status" = Some (VStr "completed") →
  let w1 := snd (websocket_onmessage (Some m) w) in
  let w2 := snd (websocket_onmessage (Some m) w1) in
  react w2 = react w1
  ∧ completedHypotheses (react w2) = completedHypotheses (react w1)
  ∧ ∀ d l, get m "data" = Some d → get d "ranked_hypotheses" = Some (VArr l) →
      hypotheses (react w1) = map markRanked l
      ∧ Forall (λ h : obj, h !! "isProcessing" = Some (VBool false))
               (hypotheses (react w1))
      ∧ length (hypotheses (react w1)) = length l
      ∧ ∀ i v, l !! i = Some v →
          ∃ h, hypotheses (react w1) !! i = Some h
               ∧ h !! "isProcessing" = Some (VBool false)
               ∧ ∀ k, k ≠ "isProcessing"%string → h !! k = ownEnumerable v !! k.
Proof.
  intros Ht Ha Hs w1 w2.
  destruct (ranking_completed_effect m Ht Ha Hs) as (f & Hf & Hrep & Heff).
  assert (react w2 = react w1) as Hidem.
  { unfold w2, w1. rewrite !Heff. js_eval. rewrite insert_insert_eq.
    destruct Hf as [->|[l ->]]; reflexivity. }
  split; [exact Hidem|]. split; [by rewrite Hidem|].
  intros d l Hd Hl. unfold w1. rewrite Heff, (Hrep d l Hd Hl). js_eval.
  split; [reflexivity|]. split; [|split].
  - apply Forall_forall. intros h Hh. apply list_elem_of_fmap in Hh as (v & -> & _).
    apply lookup_insert_eq.
  - apply length_map.
  - intros i v Hv. exists (markRanked v). split.
    + change (map markRanked l) with (markRanked <$> l).
      by rewrite list_lookup_fmap, Hv.
    + split; [apply lookup_insert_eq|].
      intros k Hk. by apply lookup_insert_ne.
Qed.

Lemma ranking_replay_idempotent_witness :
  let w1 := snd (websocket_onmessage (Some rankingDone) mounted) in
  let w2 := snd (websocket_onmessage (Some rankingDone) w1) in
  completedHypotheses (react w2) = completedHypotheses (react w1)
  ∧ ∃ h, hypotheses (react w1) !! 1 = Some h
         ∧ h !! "isProcessing" = Some (VBool false)
         ∧ h !! "id" = Some (VStr "h2") ∧ h !! "score" = Some (VNum 0.4)
         ∧ h !! "content" = None.
Proof.
  intros w1 w2.
  pose proof (ranking_replay_idempotent rankingDone mounted eq_refl eq_refl eq_refl)
    as (_ & Hready & Hstored).
  split; [exact Hready|].
  destruct (Hstored (object [("ranked_hypotheses", VArr rankedPair)]) rankedPair
              eq_refl eq_refl) as (_ & _ & _ & Hentry).
  destruct (Hentry 1 _ eq_refl) as (h & Hh & Hp & Hk).
  exists h. split; [exact Hh|]. split; [exact Hp|].
  rewrite !Hk by discriminate. repeat split.
Defined.

(** The replayed sample: both entries are stored with [isProcessing] false,
    and both are ready. *)
Example rankingDone_ready :
  completedHypotheses (react (snd (websocket_onmessage (Some rankingDone) mounted)))
  = map markRanked rankedPair.
Proof. reflexivity. Qed.

(** What a completed reflection update with a truthy [data.review] does to
    the state cells, for the handler of any render. *)
Lemma reflection_completed_effect render m d r w :
  get m "type" = Some (VStr "agent_update") →
  get m "agent" = Some (VStr "reflection") →
  get m "status" = Some (VStr "completed") →
  get m "data" = Some d → get d "review" = Some r → truthy r = true →
  react (snd (onmessage render (Some m) w))
  = with_hypotheses (map (applyReview (iteration render) r) (hypotheses (react w)))
      (with_progress (<["reflection" := VStr "completed"]> (progress (react w)))
         (with_currentAgent (VStr "reflection") (react w))).
Proof.
  intros Ht Ha Hs Hd Hr Hv. js_unfold. rewrite Ht, Ha, Hs, Hd. js_eval.
  rewrite Hr. js_eval. rewrite Hv. reflexivity.
Qed.

Lemma applyReview_touched seen r h :
  strict_eq (field h "iteration") seen && truthy (field h "isProcessing") = true →
  let h' := applyReview seen r h in
  field h' "review" = js_or (get_def r "review") r
  ∧ field h' "score" = js_or (get_def r "score") (field h "score")
  ∧ field h' "isProcessing" = VBool false
  ∧ ∀ k, k ≠ "review" → k ≠ "score" → k ≠ "isProcessing" → h' !! k = h !! k.
Proof.
  intros Hc h'. subst h'. unfold applyReview. rewrite Hc. repeat split.
  - unfold field at 1.
    by rewrite lookup_insert_ne, lookup_insert_ne, lookup_insert_eq.
  - unfold field at 1. by rewrite lookup_insert_ne, lookup_insert_eq.
  - unfold field. by rewrite lookup_insert_eq.
  - intros k H1 H2 H3. by rewrite !lookup_insert_ne.
Qed.

Lemma applyReview_untouched seen r h :
  strict_eq (field h "iteration") seen && truthy (field h "isProcessing") = false →
  applyReview seen r h = h.
Proof. intros Hc. unfold applyReview. by rewrite Hc. Qed.

(** C1, amended: a completed reflection update whose [data.review] is
    truthy rewrites exactly the stored hypotheses whose [iteration] is
    strictly equal to the iteration number the handler reads and whose
    [isProcessing] is truthy.  Each of them gets [review] from
    [data.review.review] when that is truthy and else from [data.review],
    [score] from [data.review.score] when that is truthy and else its own
    score, [isProcessing] false, and keeps every other property; all other
    hypotheses, and the length and order of the collection, stay as they
    are.  A completed reflection update without a truthy [data.review]
    leaves the collection as it is.  For a handler that reads iteration 1: after the generation of h1
    (iteration 1) and a review [{review: "ok", score: 0.9}], the ready subset
    is the single entry h1 with that review, that score and [isProcessing]
    false. *)
Theorem reflection_completed_update :
  (∀ render m d r w,
     get m "type" = Some (VStr "agent_update") →
     get m "agent" = Some (VStr "reflection") →
     get m "status" = Some (VStr "completed") →
     get m "data" = Some d → get d "review" = Some r → truthy r = true →
     let hs := hypotheses (react w) in
     let hs' := hypotheses (react (snd (onmessage render (Some m) w))) in
     length hs' = length hs
     ∧ ∀ i h, hs !! i = Some h →
         if strict_eq (field h "iteration") (iteration render)
            && truthy (field h "isProcessing")
         then ∃ h', hs' !! i = Some h'
                ∧ field h' "review" = js_or (get_def r "review") r
                ∧ field h' "score" = js_or (get_def r "score") (field h "score")
                ∧ field h' "isProcessing" = VBool false
                ∧ ∀ k, k ≠ "review" → k ≠ "score" → k ≠ "isProcessing" →
                       h' !! k = h !! k
         else hs' !! i = Some h)
  ∧ (∀ render m d w,
       get m "type" = Some (VStr "agent_update") →
       get m "agent" = Some (VStr "reflection") →
       get m "status" = Some (VStr "completed") →
       get m "data" = Some d →
       (get d "review" = None ∨ ∃ r, get d "review" = Some r ∧ truthy r = false) →
       hypotheses (react (snd (onmessage render (Some m) w))) = hypotheses (react w))
  ∧ (let render := with_iteration (VNum 1) initialState in
     let w0 := mkWorld render [] false in
     let w1 := snd (onmessage render (Some generationH1) w0) in
     let w2 := snd (onmessage render (Some reflectionOk) w1) in
     completedHypotheses (react w2) = [h1Reviewed]
     ∧ field h1Reviewed "id" = VStr "h1"
     ∧ field h1Reviewed "review" = VStr "ok"
     ∧ field h1Reviewed "score" = VNum 0.9
     ∧ field h1Reviewed "isProcessing" = VBool false).
Proof.
  split; [|split].
  - intros render m d r w Ht Ha Hs Hd Hr Hv hs hs'.
    unfold hs'. rewrite (reflection_completed_effect render m d r w) by assumption.
    js_eval. split; [apply length_map|].
    intros i h Hi. unfold hs in Hi. rewrite list_lookup_fmap, Hi. simpl.
    destruct (strict_eq (field h "iteration") (iteration render)
              && truthy (field h "isProcessing")) eqn:Hc.
    + eexists. split; [reflexivity|]. by apply applyReview_touched.
    + by rewrite applyReview_untouched.
  - intros render m d w Ht Ha Hs Hd Hr. js_unfold. rewrite Ht, Ha, Hs, Hd. js_eval.
    destruct Hr as [->|(r & -> & ->)]; reflexivity.
  - repeat split; reflexivity.
Qed.

Lemma reflection_completed_update_witness :
  let w1 := snd (onmessage initialState (Some generationH0) mounted) in
  length (hypotheses (react (snd (onmessage initialState (Some reflectionZero) w1))))
  = length (hypotheses (react w1)).
Proof.
  intros w1.
  apply (proj1 reflection_completed_update initialState reflectionZero
           (object [("review", reviewZero)]) reviewZero w1); reflexivity.
Defined.

(** C1 as stated fails on a review whose score is present and 0: the
    hypothesis h0 of the current iteration (0, no iteration has started) is
    marked as reviewed, but its score stays the 0.5 it had; the score 0 that
    the review carries is not stored. *)
Lemma reflection_zero_score_not_stored :
  let w := run [ChannelMessage (Some generationH0);
                ChannelMessage (Some reflectionZero)] mounted in
  iteration (react w) = VNum 0
  ∧ get reviewZero "score" = Some (VNum 0)
  ∧ ∃ h, hypotheses (react w) = [h]
       ∧ field h "iteration" = VNum 0
       ∧ field h "isProcessing" = VBool false
       ∧ field h "review" = VStr "unsupported"
       ∧ field h "score" = VNum 0.5
       ∧ field h "score" ≠ VNum 0.
Proof.
  repeat split. eexists. repeat split.
  intros Heq. change (VNum 0.5 = VNum 0) in Heq.
  assert (PrimFloat.eqb 0.5 0 = PrimFloat.eqb 0 0) as Hb by congruence.
  vm_compute in Hb. discriminate Hb.
Qed.

(** The handler on the channel is the one of the first render, and reads
    that render's iteration number, 0.  After [iteration_start] for
    iteration 1 the session's iteration number is 1, yet a review that
    arrives then leaves h1 of iteration 1 in processing: the ready subset is
    empty. *)
Lemma channel_reads_first_render_iteration :
  let w := run [ChannelMessage (Some (iterationStart 1));
                ChannelMessage (Some generationH1);
                ChannelMessage (Some reflectionOk)] mounted in
  iteration (react w) = VNum 1
  ∧ completedHypotheses (react w) = []
  ∧ processingCount (react w) = 1
  ∧ map (λ h, field h "id") (hypotheses (react w)) = [VStr "h1"].
Proof. repeat split. Qed.

(** ** Commands *)

(** C10: the stop command writes the started flag, the session status, the
    running flag, the progress map, the current agent and the iteration
    number, and nothing else: session id, research goal, hypotheses, error
    message, domain context and both configuration values are as before (and
    so are the connection flag, the inference-loading flag and the console);
    the command returns normally. *)
Theorem stopResearch_frame w :
  let w' := snd (stopResearch w) in
  fst (stopResearch w) = Normal tt
  ∧ sessionId (react w') = sessionId (react w)
  ∧ researchGoal (react w') = researchGoal (react w)
  ∧ hypotheses (react w') = hypotheses (react w)
  ∧ error (react w') = error (react w)
  ∧ domainContext (react w') = domainContext (react w)
  ∧ maxIterations (react w') = maxIterations (react w)
  ∧ hypothesesPerIteration (react w') = hypothesesPerIteration (react w)
  ∧ wsConnected (react w') = wsConnected (react w)
  ∧ domainDetectionLoading (react w') = domainDetectionLoading (react w)
  ∧ console w' = console w
  ∧ renderError w' = renderError w
  ∧ isStarted (react w') = false
  ∧ sessionStatus (react w') = "idle"
  ∧ isRunning (react w') = false
  ∧ progress (react w') = pendingProgress
  ∧ currentAgent (react w') = VStr ""
  ∧ iteration (react w') = VNum 0.
Proof. js_unfold. js_eval. repeat split. Qed.

(** How a start request that has been sent ends, for every outcome: on a
    failure the message is stored as the error, the started flag is cleared
    and the status is [error]; the other cells, the running flag among them,
    are not written. *)
Lemma startResearch_settle_effect o w :
  fst (startResearch_settle o w) = Normal tt
  ∧ react (snd (startResearch_settle o w))
    = match failure_message o with
      | Some msg =>
          with_sessionStatus "error"
            (with_isStarted false (with_error (VStr msg) (react w)))
      | None => react w
      end.
Proof.
  js_unfold. destruct o as [e|status [e|v]]; simpl;
    try destruct (response_ok status); simpl; split; reflexivity.
Qed.

(** C7, on the code: after a local stop the service still reports a running
    agent, which sets the running flag; the next start request fails with
    status 500.  The failure is shown as the error message, the status is
    [error] and the started flag is cleared, but the running flag is still
    set. *)
Theorem start_failure_keeps_running_flag :
  let w := run failedRestart mounted in
  error (react w) = VStr "HTTP error! status: 500"
  ∧ sessionStatus (react w) = "error"
  ∧ isStarted (react w) = false
  ∧ isRunning (react w) = true
  ∧ sessionId (react w) = Some "session_1762128060000"
  ∧ ∀ o w0, isRunning (react (snd (startResearch_settle o w0)))
            = isRunning (react w0).
Proof.
  do 5 (split; [reflexivity|]). intros o w0.
  rewrite (proj2 (startResearch_settle_effect o w0)).
  destruct (failure_message o); reflexivity.
Qed.

(** ** Domain inference *)

Lemma detectDomain_settle_effect o w :
  fst (detectDomain_settle o w) = Normal tt
  ∧ error (react (snd (detectDomain_settle o w))) = error (react w)
  ∧ domainDetectionLoading (react (snd (detectDomain_settle o w))) = false
  ∧ domainContext (react (snd (detectDomain_settle o w)))
    = match o with
      | Rejected _ => getDefaultDomainContext
      | Responded status body =>
          if response_ok status then
            match body with
            | inl _ => getDefaultDomainContext
            | inr domain => domain
            end
          else domainContext (react w)
      end.
Proof.
  js_unfold. destruct o as [e|status [e|v]]; simpl;
    try destruct (response_ok status); simpl; repeat split; reflexivity.
Qed.

(** C2, on the code: an inference request answered with a non-success
    status leaves the domain context as it was (here [null], not the default
    context); only a rejected request or an undecodable body installs the
    default.  No outcome writes the error message. *)
Theorem detectDomain_http_failure_keeps_context :
  let w := run failedInference mounted in
  domainContext (react w) = VNull
  ∧ domainContext (react w) ≠ getDefaultDomainContext
  ∧ domainDetectionLoading (react w) = false
  ∧ error (react w) = VNull
  ∧ (∀ w0 body,
       domainContext (react (snd (detectDomain_settle (Responded 500 body) w0)))
       = domainContext (react w0))
  ∧ (∀ w0 e,
       domainContext (react (snd (detectDomain_settle (Rejected e) w0)))
       = getDefaultDomainContext)
  ∧ ∀ w0 o, error (react (snd (detectDomain_settle o w0))) = error (react w0).
Proof.
  split; [reflexivity|]. split; [discriminate|]. split; [reflexivity|].
  split; [reflexivity|]. split; [|split].
  - intros w0 body.
    by rewrite (proj2 (proj2 (proj2 (detectDomain_settle_effect _ w0)))).
  - intros w0 e.
    by rewrite (proj2 (proj2 (proj2 (detectDomain_settle_effect _ w0)))).
  - intros w0 o. apply detectDomain_settle_effect.
Qed.

(** The request of the sample run was issued: the timer found more than 15
    characters and no started session. *)
Example failedInference_requested :
  domainDetectionLoading
    (react (run [GoalEdited "How do cells repair DNA damage?"; DomainTimerFired] mounted))
  = true.
Proof. reflexivity. Qed.

(** ** The progress map along runs *)

Section Preservation.
Context {I : World → Prop}.

Lemma preserves_ret {A} (a : A) : preserves I (ret a).
Proof. by intros w Hw. Qed.

Lemma preserves_throw {A} e : preserves I (@throw A e).
Proof. by intros w Hw. Qed.

Lemma preserves_bind {A B} (c : M A) (k : A → M B) :
  preserves I c → (∀ a, preserves I (k a)) → preserves I (bind c k).
Proof.
  intros Hc Hk w Hw. unfold bind. specialize (Hc w Hw).
  destruct (c w) as [[a|e] w']; simpl in *; [by apply Hk|assumption].
Qed.

Lemma preserves_try_catch {A} (c : M A) (h : Exn → M A) :
  preserves I c → (∀ e, preserves I (h e)) → preserves I (try_catch c h).
Proof.
  intros Hc Hh w Hw. unfold try_catch. specialize (Hc w Hw).
  destruct (c w) as [[a|e] w']; simpl in *; [assumption|by apply Hh].
Qed.

(** [v.k] followed by a continuation that may use what was read. *)
Lemma preserves_prop {B} v k (f : value → M B) :
  (∀ x, get v k = Some x → preserves I (f x)) → preserves I (bind (prop v k) f).
Proof.
  intros Hf w Hw. unfold bind, prop.
  destruct (get v k) as [x|]; simpl; [by apply Hf|assumption].
Qed.
End Preservation.

Lemma preserves_log e : preserves progress_inv (log e).
Proof. by intros w Hw. Qed.

(** A write that leaves the progress cell alone. *)
Lemma preserves_update f :
  (∀ s, progress (f s) = progress s) → preserves progress_inv (update f).
Proof. intros Hf w [Hp Hr]. split; [simpl; by rewrite Hf|assumption]. Qed.

Lemma preserves_setProgress p : progress_ok p → preserves progress_inv (setProgress p).
Proof. intros Hp w [_ Hr]. by split. Qed.

Lemma pendingProgress_ok : progress_ok pendingProgress.
Proof.
  split; [reflexivity|]. intros k v. unfold pendingProgress.
  rewrite !lookup_insert, lookup_empty.
  repeat case_decide; intros [= <-] || discriminate; reflexivity.
Qed.

Lemma completedProgress_ok : progress_ok completedProgress.
Proof.
  split; [reflexivity|]. intros k v. unfold completedProgress.
  rewrite !lookup_insert, lookup_empty.
  repeat case_decide; intros [= <-] || discriminate; reflexivity.
Qed.

(** Writing a known status under a known agent keeps the map well formed. *)
Lemma progress_ok_insert p a v :
  progress_ok p → a ∈ agentNames → is_name statusNames v = true →
  progress_ok (<[a := v]> p).
Proof.
  intros [Hdom Hval] Ha Hv. split.
  - rewrite dom_insert_L, Hdom. apply subseteq_union_1_L.
    apply singleton_subseteq_l. by apply elem_of_list_to_set.
  - intros k x. rewrite lookup_insert. case_decide.
    + by intros [= <-].
    + apply Hval.
Qed.

Ltac preserve_step :=
  lazymatch goal with
  | |- preserves _ (ret _) => apply preserves_ret
  | |- preserves _ (throw _) => apply preserves_throw
  | |- preserves _ (log _) => apply preserves_log
  | |- preserves _ (update _) => apply preserves_update; reflexivity
  | |- preserves _ (setProgress _) =>
      apply preserves_setProgress;
      first [apply pendingProgress_ok | apply completedProgress_ok]
  | |- preserves _ (bind _ _) => apply preserves_bind; [|intros ?]
  | |- preserves _ (try_catch _ _) => apply preserves_try_catch; [|intros ?]
  | |- preserves _ (if ?b then _ else _) => destruct b
  | |- preserves _ (match ?x with _ => _ end) => destruct x
  end.

Ltac preserve := repeat preserve_step.

Ltac handlers :=
  unfold handleSessionUpdate, websocket_onopen, websocket_onclose, websocket_onerror,
    startResearch_begin, startResearch_settle, startResearch_catch, stopResearch,
    resetSession, detectDomain_begin, detectDomain_settle, prop, typeError, when,
    void, setSessionId, setResearchGoal, setHypotheses, setIsStarted, setError,
    setSessionStatus, setDomainContext, setDomainDetectionLoading, setMaxIterations,
    setHypothesesPerIteration, setWsConnected, setCurrentAgent, setIteration,
    setIsRunning.

Lemma handleSessionUpdate_keeps_progress m :
  preserves progress_inv (handleSessionUpdate m).
Proof. handlers. preserve. Qed.

Lemma handleAgentUpdate_keeps_progress render m :
  get m "type" = Some (VStr "agent_update") → names_known_agent m = true →
  preserves progress_inv (handleAgentUpdate render m).
Proof.
  intros Ht Hk. unfold names_known_agent in Hk.
  rewrite (get_def_Some _ _ _ Ht) in Hk. simpl in Hk.
  unfold handleAgentUpdate.
  apply preserves_prop; intros agent Ha. apply preserves_prop; intros status Hs.
  apply preserves_prop; intros data Hd.
  rewrite (get_def_Some _ _ _ Ha), (get_def_Some _ _ _ Hs) in Hk.
  unfold when at 1. destruct (truthy agent && truthy status); [|apply preserves_ret].
  destruct (toLowerCase agent) as [a|] eqn:Hlow; [|discriminate].
  apply andb_prop in Hk as [Hname Hstatus]. apply bool_decide_eq_true in Hname.
  apply preserves_bind; [handlers; preserve|intros _].
  apply preserves_bind.
  { intros w [Hp Hr]. unfold setProgressWith. split; [|assumption].
    by apply progress_ok_insert. }
  intros _. handlers. preserve.
Qed.

Lemma websocket_onmessage_keeps_progress decoded :
  known_agents (ChannelMessage decoded) = true →
  preserves progress_inv (websocket_onmessage decoded).
Proof.
  intros Hk. unfold websocket_onmessage, onmessage.
  apply preserves_try_catch; [|intros e; apply preserves_log].
  destruct decoded as [m|]; [|apply preserves_throw].
  change (preserves progress_inv (handleWebSocketMessage initialState m)).
  unfold handleWebSocketMessage.
  apply preserves_bind; [apply preserves_log|intros _].
  apply preserves_prop; intros ty Hty.
  destruct (strict_eq ty (VStr "agent_update")) eqn:E.
  - apply strict_eq_str in E. subst ty.
    by apply handleAgentUpdate_keeps_progress.
  - destruct (strict_eq ty (VStr "session_update")).
    + apply handleSessionUpdate_keeps_progress.
    + apply preserves_log.
Qed.

Lemma step_keeps_progress e w :
  known_agents e = true → progress_inv w → progress_inv (step w e).
Proof.
  intros Hk Hw. unfold step.
  assert (preserves progress_inv (handler e (react w))) as Hp.
  { destruct e as [decoded| | | | | | | | | | | |]; unfold handler;
      [by apply websocket_onmessage_keeps_progress|handlers; preserve..]. }
  by apply Hp.
Qed.

Lemma run_keeps_progress es w :
  Forall (λ e, known_agents e = true) es → progress_inv w →
  progress_inv (run es w).
Proof.
  intros Hes. revert w. induction Hes as [|e es He _ IH]; intros w Hw; [assumption|].
  simpl. apply IH. by apply step_keeps_progress.
Qed.

Lemma mounted_progress_inv : progress_inv mounted.
Proof. split; [apply pendingProgress_ok|reflexivity]. Qed.

(** C4, amended: in every state reached from the mounted component through
    events whose agent updates, when they carry a truthy agent and status,
    name one of the three agents (up to letter case) and one of the four
    statuses, the progress map has exactly the keys [generation],
    [reflection] and [ranking], each with one of [pending], [running],
    [completed], [error]; and no render has failed. *)
Theorem progress_map_well_formed w :
  reachable_by known_agents w →
  progress_ok (progress (react w)) ∧ renderError w = false.
Proof.
  intros (es & Hes & ->). apply run_keeps_progress; [assumption|].
  apply mounted_progress_inv.
Qed.

Lemma progress_map_well_formed_witness :
  progress_ok (progress (react (run oneIteration mounted))).
Proof.
  apply (progress_map_well_formed (run oneIteration mounted)).
  exists oneIteration. split; [|reflexivity].
  unfold oneIteration. repeat constructor.
Defined.

(** C4 as stated fails: the handler writes the progress entry of whatever
    agent the update names.  One update from an agent called [evolution]
    gives the map a fourth key. *)
Lemma unknown_agent_adds_progress_key :
  let w := run [ChannelMessage (Some evolutionRunning)] mounted in
  reachable w
  ∧ progress (react w) !! "evolution" = Some (VStr "running")
  ∧ size (progress (react w)) = 4
  ∧ ¬ progress_ok (progress (react w)).
Proof.
  split; [by eexists|]. split; [reflexivity|]. split; [reflexivity|].
  intros [Hdom _].
  apply (f_equal (λ X : gset string, bool_decide ("evolution" ∈ X))) in Hdom.
  vm_compute in Hdom. discriminate Hdom.
Qed.

(** * Further properties *)

(** ** Cells a handler keeps *)

Section Writes.
Context (I : World → Prop).

Lemma log_preserves e :
  (∀ w, I w → I (mkWorld (react w) (console w ++ [e]) (renderError w))) →
  preserves I (log e).
Proof. intros H w Hw. by apply H. Qed.

Lemma update_preserves f :
  (∀ w, I w → I (mkWorld (f (react w)) (console w) (renderError w))) →
  preserves I (update f).
Proof. intros H w Hw. by apply H. Qed.

Lemma setProgressWith_preserves f :
  (∀ w p, I w → f (progress (react w)) = Some p →
          I (mkWorld (with_progress p (react w)) (console w) (renderError w))) →
  (∀ w, I w → f (progress (react w)) = None →
        I (mkWorld (react w) (console w) true)) →
  preserves I (setProgressWith f).
Proof.
  intros Hs Hn w Hw. unfold setProgressWith.
  destruct (f (progress (react w))) eqn:E; [by apply Hs|by apply Hn].
Qed.
End Writes.

(** One step through a handler; [side] settles what a write does to the
    property. *)
Ltac keeps_step side :=
  lazymatch goal with
  | |- preserves _ (ret _) => apply preserves_ret
  | |- preserves _ (throw _) => apply preserves_throw
  | |- preserves _ (log _) => apply log_preserves; side
  | |- preserves _ (update _) => apply update_preserves; side
  | |- preserves _ (setProgressWith _) => apply setProgressWith_preserves; side
  | |- preserves _ (bind _ _) => apply preserves_bind; [|intros ?]
  | |- preserves _ (try_catch _ _) => apply preserves_try_catch; [|intros ?]
  | |- preserves _ (if ?b then _ else _) => destruct b
  | |- preserves _ (match ?x with _ => _ end) => destruct x
  end.

Ltac all_handlers :=
  unfold websocket_onmessage, onmessage, handleWebSocketMessage, handleAgentUpdate,
    handleSessionUpdate, websocket_onopen, websocket_onclose, websocket_onerror,
    startResearch_begin, startResearch_settle, startResearch_catch, stopResearch,
    resetSession, detectDomain_begin, detectDomain_settle, prop, typeError, when,
    void, setSessionId, setResearchGoal, setHypotheses, setIsStarted, setError,
    setSessionStatus, setDomainContext, setDomainDetectionLoading, setMaxIterations,
    setHypothesesPerIteration, setWsConnected, setCurrentAgent, setIteration,
    setProgress, setIsRunning.

Ltac unchanged := intros; assumption.

(** X1: No channel message, whatever it holds, writes the session id, the goal
    text, the two configuration values, the connection flag, the domain
    context or the inference-loading flag. *)
Theorem channel_keeps_control_cells decoded w :
  controlCells (react (snd (websocket_onmessage decoded w))) = controlCells (react w).
Proof.
  assert (keeps (λ s, controlCells s = controlCells (react w))
            (websocket_onmessage decoded)) as Hk.
  { unfold keeps. all_handlers. repeat keeps_step unchanged. }
  by apply Hk.
Qed.

(** ** Routing *)

Lemma bind_run {A B} (c : M A) (k : A → M B) w a w1 :
  c w = (Normal a, w1) → bind c k w = k a w1.
Proof. intros H. unfold bind. by rewrite H. Qed.

(** The world in which the routed handler starts: the message has been
    logged. *)
Lemma dispatch_agent_update m w :
  get m "type" = Some (VStr "agent_update") →
  websocket_onmessage (Some m) w
  = try_catch (handleAgentUpdate initialState m)
      (λ e, log (ConsoleError "Failed to parse WebSocket message:" e))
      (mkWorld (react w) (console w ++ [ConsoleLog "Received WebSocket message:" [m]])
               (renderError w)).
Proof.
  intros Ht. unfold websocket_onmessage, onmessage, handleWebSocketMessage, prop,
    try_catch, bind, ret, log. rewrite Ht. reflexivity.
Qed.

Lemma dispatch_session_update m w :
  get m "type" = Some (VStr "session_update") →
  websocket_onmessage (Some m) w
  = try_catch (handleSessionUpdate m)
      (λ e, log (ConsoleError "Failed to parse WebSocket message:" e))
      (mkWorld (react w) (console w ++ [ConsoleLog "Received WebSocket message:" [m]])
               (renderError w)).
Proof.
  intros Ht. unfold websocket_onmessage, onmessage, handleWebSocketMessage, prop,
    try_catch, bind, ret, log. rewrite Ht. reflexivity.
Qed.

(** ** Agent updates *)

(** X2: An agent update, whatever it holds, leaves the started flag, the
    session status, the error message and the iteration number as they are
    and never clears the running flag; unless its status is [completed], it
    leaves the hypotheses as they are too. *)
Theorem agent_update_keeps_session_cells m w :
  get m "type" = Some (VStr "agent_update") →
  let w' := snd (websocket_onmessage (Some m) w) in
  sessionCells (react w') = sessionCells (react w)
  ∧ (isRunning (react w) = true → isRunning (react w') = true)
  ∧ (get m "status" ≠ Some (VStr "completed") →
     hypotheses (react w') = hypotheses (react w)).
Proof.
  intros Ht w'. unfold w'. rewrite (dispatch_agent_update m w Ht).
  set (w1 := mkWorld _ _ _).
  set (h := try_catch _ _).
  assert (preserves (λ x, sessionCells (react x) = sessionCells (react w)
                          ∧ (isRunning (react w) = true → isRunning (react x) = true)) h)
    as H1.
  { unfold h, handleAgentUpdate. all_handlers.
    repeat keeps_step ltac:(intros; first [assumption | by intuition]). }
  assert (get m "status" ≠ Some (VStr "completed") →
          preserves (λ x, hypotheses (react x) = hypotheses (react w)) h) as H2.
  { intros Hs. unfold h, handleAgentUpdate.
    apply preserves_try_catch; [|intros e; apply log_preserves; unchanged].
    apply preserves_prop; intros agent _. apply preserves_prop; intros status Hst.
    apply preserves_prop; intros data _.
    rewrite (strict_eq_str_false status "completed") by congruence.
    all_handlers. repeat keeps_step unchanged. }
  destruct (H1 w1) as [Ha Hb]; [by split|].
  repeat split; [exact Ha|exact Hb|].
  intros Hs. by apply (H2 Hs w1).
Qed.

Lemma agent_update_keeps_session_cells_witness :
  isRunning (react (snd (websocket_onmessage (Some rankingDone)
                           (mkWorld (with_isRunning true initialState) [] false))))
  = true.
Proof.
  apply (agent_update_keeps_session_cells rankingDone
           (mkWorld (with_isRunning true initialState) [] false)); reflexivity.
Defined.

(** X3: An agent update whose agent is a non-empty string of ASCII
    characters and whose status is truthy writes the status under the agent
    name with A-Z lower-cased, and nothing else, into the progress map;
    makes the agent, as sent, the current one; and sets the running flag
    when the status is [running] -- whatever the rest of the message holds,
    and also when handling the payload raises.  The updater of the progress
    map does not raise: the flag that records a raising updater is left as
    it was (what the next render does with the stored values is not
    covered). *)
Theorem agent_update_writes_progress m a st w :
  get m "type" = Some (VStr "agent_update") →
  get m "agent" = Some (VStr a) → a ≠ ""%string → asciiText a = true →
  get m "status" = Some st → truthy st = true →
  let w' := snd (websocket_onmessage (Some m) w) in
  progress (react w') = <[lower_string a := st]> (progress (react w))
  ∧ progress (react w') !! lower_string a = Some st
  ∧ (∀ k, k ≠ lower_string a → progress (react w') !! k = progress (react w) !! k)
  ∧ currentAgent (react w') = VStr a
  ∧ renderError w' = renderError w
  ∧ (st = VStr "running" → isRunning (react w') = true).
Proof.
  intros Ht Ha Hne _ Hs Hst w'.
  destruct (get_total m "type" _ "data" Ht) as [d Hd].
  assert (truthy (VStr a) = true) as Hta.
  { simpl. destruct a; [congruence|reflexivity]. }
  set (P := <[lower_string a := st]> (progress (react w))).
  assert (progress (react w') = P ∧ currentAgent (react w') = VStr a
          ∧ renderError w' = renderError w
          ∧ (st = VStr "running" → isRunning (react w') = true)) as (H1 & H2 & H3 & H4).
  { unfold w'. remember (websocket_onmessage (Some m) w) as r eqn:Hr.
    rewrite (dispatch_agent_update m w Ht) in Hr.
    unfold handleAgentUpdate, prop in Hr. rewrite Ha, Hs, Hd in Hr.
    unfold try_catch in Hr.
    set (w1 := mkWorld _ _ _) in Hr.
    rewrite (bind_run _ _ w1 (VStr a) w1 eq_refl) in Hr.
    rewrite (bind_run _ _ w1 st w1 eq_refl) in Hr.
    rewrite (bind_run _ _ w1 d w1 eq_refl) in Hr.
    rewrite Hta, Hst in Hr. unfold when at 1 in Hr. cbn [andb] in Hr.
    set (w2 := mkWorld (with_currentAgent (VStr a) (react w1)) (console w1)
                 (renderError w1)) in Hr.
    rewrite (bind_run _ _ w1 tt w2 eq_refl) in Hr.
    set (w3 := mkWorld (with_progress P (react w2)) (console w2) (renderError w2)) in Hr.
    rewrite (bind_run _ _ w2 tt w3 eq_refl) in Hr.
    set (rest := bind _ _) in Hr.
    assert (preserves (λ x, progress (react x) = P ∧ currentAgent (react x) = VStr a
                            ∧ renderError x = renderError w) rest) as Hrest.
    { unfold rest. all_handlers. repeat keeps_step unchanged. }
    assert (st = VStr "running" → isRunning (react (snd (rest w3))) = true) as Hrun.
    { intros ->. unfold rest. cbn [strict_eq String.eqb Ascii.eqb Bool.eqb when].
      set (w4 := mkWorld (with_isRunning true (react w3)) (console w3) (renderError w3)).
      rewrite (bind_run _ _ w3 tt w4 eq_refl).
      match goal with |- isRunning (react (snd (?c w4))) = true =>
        assert (preserves (λ x, isRunning (react x) = true) c) as Hc
      end.
      { all_handlers. repeat keeps_step unchanged. }
      by apply Hc. }
    specialize (Hrest w3 (conj eq_refl (conj eq_refl eq_refl))).
    destruct (rest w3) as [[[]|e] w5]; subst r; simpl in *; intuition. }
  rewrite H1. unfold P.
  repeat split; try assumption.
  - apply lookup_insert_eq.
  - intros k Hk. by apply lookup_insert_ne.
Qed.

Lemma agent_update_writes_progress_witness :
  progress (react (snd (websocket_onmessage
                          (Some (agentUpdate "Reflection" "error" VNull)) mounted)))
  !! "reflection" = Some (VStr "error").
Proof.
  apply (agent_update_writes_progress (agentUpdate "Reflection" "error" VNull)
           "Reflection" (VStr "error") mounted); (reflexivity || discriminate).
Defined.

(** ** Generation *)

(** What a completed generation update with a truthy [data.hypothesis] does
    to the state cells, for the handler of any render. *)
Lemma generation_completed_effect render m d hyp w :
  get m "type" = Some (VStr "agent_update") →
  get m "agent" = Some (VStr "generation") →
  get m "status" = Some (VStr "completed") →
  get m "data" = Some d → get d "hypothesis" = Some hyp → truthy hyp = true →
  react (snd (onmessage render (Some m) w))
  = with_hypotheses (addHypothesis hyp (hypotheses (react w)))
      (with_progress (<["generation" := VStr "completed"]> (progress (react w)))
         (with_currentAgent (VStr "generation") (react w))).
Proof.
  intros Ht Ha Hs Hd Hh Hv. js_unfold. rewrite Ht, Ha, Hs, Hd. js_eval.
  rewrite Hh. js_eval. rewrite Hv. reflexivity.
Qed.

Lemma truthy_get hyp k : truthy hyp = true → get_def hyp k = field (ownEnumerable hyp) k.
Proof. destruct hyp; try discriminate; reflexivity. Qed.

Lemma added_id hyp :
  truthy hyp = true →
  field (<["isProcessing" := VBool true]> (ownEnumerable hyp)) "id" = get_def hyp "id".
Proof.
  intros Hv. rewrite (truthy_get hyp "id" Hv). unfold field.
  by rewrite lookup_insert_ne.
Qed.

(** X4: A completed generation update stores its hypothesis at most once: when
    a stored hypothesis has a strictly equal [id] (two missing ids are
    equal in that sense) the collection is left as it is; otherwise the
    collection grows by one entry at its end, which has the properties of
    the payload and [isProcessing] true.  The entries stored before keep
    their place and content in both cases. *)
Theorem generation_stores_once render m d hyp w :
  get m "type" = Some (VStr "agent_update") →
  get m "agent" = Some (VStr "generation") →
  get m "status" = Some (VStr "completed") →
  get m "data" = Some d → get d "hypothesis" = Some hyp → truthy hyp = true →
  let hs := hypotheses (react w) in
  let hs' := hypotheses (react (snd (onmessage render (Some m) w))) in
  ((∃ h, h ∈ hs ∧ strict_eq (field h "id") (get_def hyp "id") = true) → hs' = hs)
  ∧ ((∀ h, h ∈ hs → strict_eq (field h "id") (get_def hyp "id") = false) →
     ∃ new, hs' = hs ++ [new]
            ∧ new !! "isProcessing" = Some (VBool true)
            ∧ field new "id" = get_def hyp "id"
            ∧ ∀ k, k ≠ "isProcessing" → new !! k = ownEnumerable hyp !! k).
Proof.
  intros Ht Ha Hs Hd Hh Hv hs hs'. unfold hs'.
  rewrite (generation_completed_effect render m d hyp w) by assumption.
  js_eval. fold hs. unfold addHypothesis. split.
  - intros (h & Hin & Heq).
    destruct (List.find _ hs) eqn:E; [reflexivity|].
    apply list_elem_of_In in Hin.
    pose proof (List.find_none _ _ E h Hin) as Hn. simpl in Hn. congruence.
  - intros Hall.
    destruct (List.find _ hs) as [h|] eqn:E.
    + apply List.find_some in E as [Hin Heq]. apply list_elem_of_In in Hin.
      rewrite (Hall h Hin) in Heq. discriminate.
    + eexists. split; [reflexivity|]. split; [apply lookup_insert_eq|].
      split; [by apply added_id|].
      intros k Hk. by apply lookup_insert_ne.
Qed.

Lemma generation_stores_once_witness :
  hypotheses (react (snd (onmessage initialState (Some generationH1)
                            (snd (onmessage initialState (Some generationH1) mounted)))))
  = hypotheses (react (snd (onmessage initialState (Some generationH1) mounted))).
Proof.
  set (w1 := snd (onmessage initialState (Some generationH1) mounted)).
  refine (proj1 (generation_stores_once initialState generationH1 _ _ w1
                   eq_refl eq_refl eq_refl eq_refl eq_refl eq_refl) _).
  eexists. split; [apply list_elem_of_here|]. reflexivity.
Defined.

(** X5: Generation never gives two stored hypotheses the same string
    identifier: when the stored identifiers are pairwise different and the
    payload's identifier is a string, the identifiers are pairwise different
    afterwards. *)
Theorem generation_keeps_ids_distinct render m d hyp i w :
  get m "type" = Some (VStr "agent_update") →
  get m "agent" = Some (VStr "generation") →
  get m "status" = Some (VStr "completed") →
  get m "data" = Some d → get d "hypothesis" = Some hyp → truthy hyp = true →
  get hyp "id" = Some (VStr i) →
  NoDup (map (λ h, field h "id") (hypotheses (react w))) →
  NoDup (map (λ h, field h "id")
             (hypotheses (react (snd (onmessage render (Some m) w))))).
Proof.
  intros Ht Ha Hs Hd Hh Hv Hi Hnd.
  rewrite (generation_completed_effect render m d hyp w) by assumption.
  js_eval. unfold addHypothesis. rewrite (get_def_Some _ _ _ Hi).
  destruct (List.find _ _) as [h|] eqn:E; [assumption|].
  rewrite map_app. simpl. apply NoDup_app. split; [assumption|]. split.
  - intros v Hin Hv'. apply list_elem_of_singleton in Hv'. subst v.
    apply list_elem_of_fmap in Hin as (h & Hid & Hin).
    apply list_elem_of_In in Hin.
    pose proof (List.find_none _ _ E h Hin) as Hn. simpl in Hn.
    rewrite <- Hid in Hn.
    pose proof (added_id hyp Hv) as Hnew. rewrite (get_def_Some _ _ _ Hi) in Hnew.
    rewrite Hnew in Hn. simpl in Hn. rewrite String.eqb_refl in Hn. discriminate.
  - apply NoDup_singleton.
Qed.

Lemma generation_keeps_ids_distinct_witness :
  let w := snd (onmessage initialState (Some generationH1)
                  (snd (onmessage initialState (Some generationH0) mounted))) in
  map (λ h, field h "id") (hypotheses (react w)) = [VStr "h0"; VStr "h1"]
  ∧ NoDup (map (λ h, field h "id")
               (hypotheses (react (snd (onmessage initialState (Some generationH1) w))))).
Proof.
  intros w. split; [reflexivity|].
  apply (generation_keeps_ids_distinct initialState generationH1
           (object [("hypothesis", object [("id", VStr "h1"); ("iteration", VNum 1);
                                            ("content", VStr "a conjecture")])])
           (object [("id", VStr "h1"); ("iteration", VNum 1);
                    ("content", VStr "a conjecture")]) "h1" w);
    try reflexivity.
  apply NoDup_cons. split.
  - intros Hin. apply list_elem_of_singleton in Hin. discriminate Hin.
  - apply NoDup_singleton.
Defined.

Lemma find_id_object (hs : list obj) v :
  (∃ l, v = VArr l) ∨ (∃ o, v = VObj o) →
  List.find (λ h, strict_eq (field h "id") v) hs = None.
Proof.
  intros Hobj. induction hs as [|h0 hs IH]; [reflexivity|]. simpl.
  destruct Hobj as [[x ->]|[o ->]]; destruct (field h0 "id"); simpl; exact IH.
Qed.

(** X6: Delivering one completed generation update twice stores its hypothesis
    once when the identifier is strictly equal to itself (a string, a
    boolean, [null], a missing identifier): the state after the second
    delivery is the state after the first.  An identifier that is an array
    or an object is never recognised: every delivery appends an entry. *)
Theorem generation_replay render m d hyp w :
  get m "type" = Some (VStr "agent_update") →
  get m "agent" = Some (VStr "generation") →
  get m "status" = Some (VStr "completed") →
  get m "data" = Some d → get d "hypothesis" = Some hyp → truthy hyp = true →
  let w1 := snd (onmessage render (Some m) w) in
  let w2 := snd (onmessage render (Some m) w1) in
  (strict_eq (get_def hyp "id") (get_def hyp "id") = true → react w2 = react w1)
  ∧ ((∃ l, get_def hyp "id" = VArr l) ∨ (∃ o, get_def hyp "id" = VObj o) →
     length (hypotheses (react w2)) = S (length (hypotheses (react w1)))).
Proof.
  intros Ht Ha Hs Hd Hh Hv w1 w2.
  set (hs := hypotheses (react w)).
  assert (hypotheses (react w1) = addHypothesis hyp hs) as H1.
  { unfold w1. by rewrite (generation_completed_effect render m d hyp w). }
  assert (react w2
          = with_hypotheses (addHypothesis hyp (addHypothesis hyp hs)) (react w1)) as H2.
  { unfold w2. rewrite (generation_completed_effect render m d hyp w1) by assumption.
    rewrite H1. unfold w1.
    rewrite (generation_completed_effect render m d hyp w) by assumption.
    js_eval. by rewrite insert_insert_eq. }
  split.
  - intros Hid. rewrite H2.
    transitivity (with_hypotheses (hypotheses (react w1)) (react w1));
      [|apply with_hypotheses_id].
    rewrite H1. f_equal.
    assert (∃ h, List.find (λ h, strict_eq (field h "id") (get_def hyp "id"))
                   (addHypothesis hyp hs) = Some h) as [h Hf].
    { unfold addHypothesis.
      destruct (List.find _ hs) as [h|] eqn:E; [by exists h|].
      clear -E Hid Hv. induction hs as [|h0 hs IH]; simpl.
      - rewrite (added_id hyp Hv), Hid. eauto.
      - simpl in E. destruct (strict_eq (field h0 "id") (get_def hyp "id"));
          [discriminate|]. by apply IH. }
    unfold addHypothesis at 1. by rewrite Hf.
  - intros Hobj. rewrite H2, H1. js_eval.
    unfold addHypothesis. rewrite !(find_id_object _ _ Hobj), !length_app. simpl. lia.
Qed.

Lemma generation_replay_witness :
  let w1 := snd (onmessage initialState (Some generationH1) mounted) in
  react (snd (onmessage initialState (Some generationH1) w1)) = react w1.
Proof.
  intros w1.
  pose proof (generation_replay initialState generationH1 _ _ mounted
                eq_refl eq_refl eq_refl eq_refl eq_refl eq_refl) as H.
  apply (proj1 H). reflexivity.
Defined.

(** ** Reflection *)

Lemma applyReview_twice seen r h :
  applyReview seen r (applyReview seen r h) = applyReview seen r h.
Proof.
  destruct (strict_eq (field h "iteration") seen && truthy (field h "isProcessing"))
    eqn:E.
  - set (h' := applyReview seen r h).
    assert (truthy (field h' "isProcessing") = false) as Hp.
    { unfold h', applyReview. rewrite E. unfold field. by rewrite lookup_insert_eq. }
    unfold applyReview at 1. by rewrite Hp, andb_false_r.
  - by rewrite !(applyReview_untouched seen r h E).
Qed.

(** What a completed reflection update does to the state cells, whatever
    its payload: the collection is left as it is or every entry goes
    through the review of the message. *)
Lemma reflection_completed_effect_any render m :
  get m "type" = Some (VStr "agent_update") →
  get m "agent" = Some (VStr "reflection") →
  get m "status" = Some (VStr "completed") →
  ∃ f : list obj → list obj,
    (f = id ∨ ∃ r, f = map (applyReview (iteration render) r))
    ∧ ∀ w, react (snd (onmessage render (Some m) w))
           = with_hypotheses (f (hypotheses (react w)))
               (with_progress (<["reflection" := VStr "completed"]> (progress (react w)))
                  (with_currentAgent (VStr "reflection") (react w))).
Proof.
  intros Ht Ha Hs.
  destruct (get_total m "type" _ "data" Ht) as [d Hd].
  destruct (get d "review") as [r|] eqn:Hr; [destruct (truthy r) eqn:Hv|].
  - exists (map (applyReview (iteration render) r)). split; [right; eauto|].
    intros w. by apply (reflection_completed_effect render m d r w).
  - exists id. split; [by left|]. intros w. js_unfold. rewrite Ht, Ha, Hs, Hd.
    js_eval. rewrite Hr. js_eval. rewrite Hv. unfold id.
    rewrite <- (with_hypotheses_id (with_progress _ _)) at 1. reflexivity.
  - exists id. split; [by left|]. intros w. js_unfold. rewrite Ht, Ha, Hs, Hd.
    js_eval. rewrite Hr. js_eval. unfold id.
    rewrite <- (with_hypotheses_id (with_progress _ _)) at 1. reflexivity.
Qed.

(** X7: Delivering one completed reflection update twice is the same as
    delivering it once, for the handler of any render: a hypothesis the
    first delivery has reviewed is no longer in processing, so the second
    leaves it alone. *)
Theorem reflection_replay render m w :
  get m "type" = Some (VStr "agent_update") →
  get m "agent" = Some (VStr "reflection") →
  get m "status" = Some (VStr "completed") →
  let w1 := snd (onmessage render (Some m) w) in
  let w2 := snd (onmessage render (Some m) w1) in
  react w2 = react w1 ∧ completedHypotheses (react w2) = completedHypotheses (react w1).
Proof.
  intros Ht Ha Hs w1 w2.
  destruct (reflection_completed_effect_any render m Ht Ha Hs) as (f & Hf & Heff).
  assert (react w2 = react w1) as Hidem.
  { unfold w2, w1. rewrite !Heff. js_eval. rewrite insert_insert_eq.
    destruct Hf as [->|[r ->]]; [reflexivity|].
    assert (∀ hs, map (applyReview (iteration render) r)
                    (map (applyReview (iteration render) r) hs)
                  = map (applyReview (iteration render) r) hs) as Hmap.
    { intros hs. rewrite map_map. apply map_ext. intros h. apply applyReview_twice. }
    rewrite Hmap. reflexivity. }
  split; [exact Hidem|by rewrite Hidem].
Qed.

Lemma reflection_replay_witness :
  let w1 := snd (onmessage initialState (Some reflectionZero)
                   (snd (onmessage initialState (Some generationH0) mounted))) in
  react (snd (onmessage initialState (Some reflectionZero) w1)) = react w1.
Proof.
  intros w1. apply (reflection_replay initialState reflectionZero); reflexivity.
Defined.

(** ** Ranking *)

Lemma markRanked_ready h :
  isReady (markRanked h)
  = truthy (field (ownEnumerable h) "review") && truthy (field (ownEnumerable h) "score").
Proof.
  unfold isReady, markRanked, field.
  rewrite lookup_insert_eq, !lookup_insert_ne by discriminate. reflexivity.
Qed.

(** X8: After a completed ranking update that carries an array, nothing is in
    processing, and the ready subset is, in ranked order, the ranked entries
    that have a truthy review and a truthy score -- whatever [isProcessing]
    they carried and whatever was stored before. *)
Theorem ranking_makes_ready m d l w :
  get m "type" = Some (VStr "agent_update") →
  get m "agent" = Some (VStr "ranking") →
  get m "status" = Some (VStr "completed") →
  get m "data" = Some d → get d "ranked_hypotheses" = Some (VArr l) →
  let s' := react (snd (websocket_onmessage (Some m) w)) in
  processingCount s' = 0
  ∧ completedHypotheses s'
    = map markRanked
        (List.filter (λ h, truthy (field (ownEnumerable h) "review")
                           && truthy (field (ownEnumerable h) "score")) l).
Proof.
  intros Ht Ha Hs Hd Hl s'.
  destruct (ranking_completed_effect m Ht Ha Hs) as (f & _ & Hrep & Heff).
  unfold s'. rewrite Heff, (Hrep d l Hd Hl).
  unfold processingCount, completedHypotheses. js_eval.
  clear. induction l as [|h l IH]; [by split|]. destruct IH as [IH1 IH2].
  simpl. rewrite markRanked_ready.
  assert (truthy (field (markRanked h) "isProcessing") = false) as ->.
  { unfold markRanked, field. by rewrite lookup_insert_eq. }
  split; [exact IH1|].
  destruct (truthy _ && truthy _); simpl; by rewrite IH2.
Qed.

Lemma ranking_makes_ready_witness :
  processingCount (react (snd (websocket_onmessage (Some rankingDone) mounted))) = 0.
Proof.
  apply (ranking_makes_ready rankingDone
           (object [("ranked_hypotheses", VArr rankedPair)]) rankedPair mounted);
    reflexivity.
Defined.

(** ** Session events *)

(** X9: A [research_error] event whose [data] can be read ends the session:
    the status becomes [error], the started and running flags are cleared,
    and the stored message is [data.error] when that is truthy and the text
    "Research session failed" otherwise, so it is never empty.  No other cell
    is written: the hypotheses, and with them the ready subset, stay. *)
Theorem research_error_ends_session m d e w :
  get m "type" = Some (VStr "session_update") →
  get m "event_type" = Some (VStr "research_error") →
  get m "data" = Some d → get d "error" = Some e →
  let s' := react (snd (websocket_onmessage (Some m) w)) in
  s' = with_isRunning false
         (with_isStarted false
            (with_error (js_or e (VStr "Research session failed"))
               (with_sessionStatus "error" (react w))))
  ∧ truthy (error s') = true
  ∧ hypotheses s' = hypotheses (react w)
  ∧ completedHypotheses s' = completedHypotheses (react w).
Proof.
  intros Ht He Hd Herr s'.
  assert (s' = with_isRunning false
                 (with_isStarted false
                    (with_error (js_or e (VStr "Research session failed"))
                       (with_sessionStatus "error" (react w))))) as ->.
  { unfold s'. js_unfold. rewrite Ht. js_eval. rewrite He, Hd. js_eval.
    rewrite Herr. reflexivity. }
  repeat split. js_eval. unfold js_or. by destruct (truthy e) eqn:E.
Qed.

Lemma research_error_ends_session_witness :
  error (react (snd (websocket_onmessage
                       (Some (sessionUpdate "research_error"
                                (object [("error", VStr "")]))) mounted)))
  = VStr "Research session failed".
Proof.
  pose proof (research_error_ends_session
                (sessionUpdate "research_error" (object [("error", VStr "")]))
                (object [("error", VStr "")]) (VStr "") mounted
                eq_refl eq_refl eq_refl eq_refl) as [H _].
  rewrite H. reflexivity.
Defined.

(** X10: A [research_error] event without a readable [data] (the field is
    missing or [null]) sets the status to [error] and then fails on
    [data.error]: the exception is caught and logged, and the started flag,
    the running flag and the error message are left as they were. *)
Theorem research_error_without_data m d w :
  get m "type" = Some (VStr "session_update") →
  get m "event_type" = Some (VStr "research_error") →
  get m "data" = Some d → get d "error" = None →
  let r := websocket_onmessage (Some m) w in
  fst r = Normal tt
  ∧ react (snd r) = with_sessionStatus "error" (react w)
  ∧ isStarted (react (snd r)) = isStarted (react w)
  ∧ isRunning (react (snd r)) = isRunning (react w)
  ∧ error (react (snd r)) = error (react w)
  ∧ length (console (snd r)) = length (console w) + 2.
Proof.
  intros Ht He Hd Herr r.
  assert (r = (Normal tt,
               mkWorld (with_sessionStatus "error" (react w))
                 ((console w ++ [ConsoleLog "Received WebSocket message:" [m]])
                  ++ [ConsoleError "Failed to parse WebSocket message:"
                        (JsError "TypeError" "Cannot read properties of undefined")])
                 (renderError w))) as ->.
  { unfold r. js_unfold. rewrite Ht. js_eval. rewrite He, Hd. js_eval.
    rewrite Herr. reflexivity. }
  repeat split. simpl. rewrite !length_app. simpl. lia.
Qed.

Lemma research_error_without_data_witness :
  let w := mkWorld (with_isRunning true (with_isStarted true initialState)) [] false in
  isStarted (react (snd (websocket_onmessage
                           (Some (object [("type", VStr "session_update");
                                          ("event_type", VStr "research_error")])) w)))
  = true.
Proof.
  intros w.
  pose proof (research_error_without_data
                (object [("type", VStr "session_update");
                         ("event_type", VStr "research_error")])
                VUndefined w eq_refl eq_refl eq_refl eq_refl) as (_ & _ & H & _).
  exact H.
Defined.

(** X11: [research_started] and [research_completed] take effect without
    reading [data], so also when the message has none.  The first sets the
    status to [running] and the running flag, and does not write the started
    flag; the second sets the status to [completed], clears both flags and
    marks the three agents completed.  Neither writes the hypotheses. *)
Theorem research_started_and_completed m w :
  get m "type" = Some (VStr "session_update") →
  let s' := react (snd (websocket_onmessage (Some m) w)) in
  (get m "event_type" = Some (VStr "research_started") →
   s' = with_isRunning true (with_sessionStatus "running" (react w)))
  ∧ (get m "event_type" = Some (VStr "research_completed") →
     s' = with_progress completedProgress
            (with_isRunning false
               (with_isStarted false (with_sessionStatus "completed" (react w)))))
  ∧ (get m "event_type" = Some (VStr "research_started")
     ∨ get m "event_type" = Some (VStr "research_completed") →
     hypotheses s' = hypotheses (react w) ∧ error s' = error (react w)
     ∧ iteration s' = iteration (react w)).
Proof.
  intros Ht s'.
  destruct (get_total m "type" _ "data" Ht) as [d Hd].
  assert (get m "event_type" = Some (VStr "research_started") →
          s' = with_isRunning true (with_sessionStatus "running" (react w))) as H1.
  { intros He. unfold s'. js_unfold. rewrite Ht. js_eval. rewrite He, Hd. reflexivity. }
  assert (get m "event_type" = Some (VStr "research_completed") →
          s' = with_progress completedProgress
                 (with_isRunning false
                    (with_isStarted false (with_sessionStatus "completed" (react w)))))
    as H2.
  { intros He. unfold s'. js_unfold. rewrite Ht. js_eval. rewrite He, Hd. reflexivity. }
  split; [exact H1|]. split; [exact H2|].
  intros [He|He]; [rewrite (H1 He)|rewrite (H2 He)]; repeat split.
Qed.

Lemma research_started_and_completed_witness :
  isStarted (react (snd (websocket_onmessage
                           (Some (object [("type", VStr "session_update");
                                          ("event_type", VStr "research_started")]))
                           mounted)))
  = false.
Proof.
  pose proof (research_started_and_completed
                (object [("type", VStr "session_update");
                         ("event_type", VStr "research_started")]) mounted eq_refl)
    as [H _].
  rewrite (H eq_refl). reflexivity.
Defined.

(** X12: Session updates that do nothing: one whose [event_type] is none of the
    four known events, and an [iteration_start] whose [data.iteration] is
    not truthy (0, missing, or [data] itself unreadable).  The handler
    returns and no state cell changes; iteration number 0 can never be
    announced. *)
Theorem ignored_session_updates m ev d w :
  get m "type" = Some (VStr "session_update") →
  get m "event_type" = Some ev → get m "data" = Some d →
  (ev ≠ VStr "research_started" ∧ ev ≠ VStr "iteration_start"
   ∧ ev ≠ VStr "research_completed" ∧ ev ≠ VStr "research_error")
  ∨ (ev = VStr "iteration_start"
     ∧ ∀ it, get d "iteration" = Some it → truthy it = false) →
  fst (websocket_onmessage (Some m) w) = Normal tt
  ∧ react (snd (websocket_onmessage (Some m) w)) = react w
  ∧ renderError (snd (websocket_onmessage (Some m) w)) = renderError w.
Proof.
  intros Ht He Hd Hcase. split; [apply websocket_onmessage_returns|].
  js_unfold. rewrite Ht. js_eval. rewrite He, Hd. js_eval.
  destruct Hcase as [(H1 & H2 & H3 & H4)|[-> Hit]].
  - rewrite !strict_eq_str_false by assumption. split; reflexivity.
  - js_eval. destruct (get d "iteration") as [it|] eqn:E; js_eval.
    + rewrite (Hit it eq_refl). split; reflexivity.
    + split; reflexivity.
Qed.

Lemma ignored_session_updates_witness :
  react (snd (websocket_onmessage (Some (iterationStart 0))
                (mkWorld (with_progress completedProgress initialState) [] false)))
  = with_progress completedProgress initialState.
Proof.
  apply (ignored_session_updates (iterationStart 0) (VStr "iteration_start")
           (object [("iteration", VNum 0)])
           (mkWorld (with_progress completedProgress initialState) [] false));
    try reflexivity.
  right. split; [reflexivity|]. intros it [= <-]. reflexivity.
Defined.

(** ** Start, stop, reset *)

Lemma truthy_VStr t : truthy (VStr t) = false ↔ t = ""%string.
Proof.
  simpl. rewrite negb_false_iff. apply String.eqb_eq.
Qed.

(** X13: For a goal of ASCII characters, a start is refused without any
    request when the trimmed goal is empty or the channel is not connected.
    Only the error message is written; the message about the goal takes
    precedence over the one about the connection. *)
Theorem start_refused render now w :
  asciiText (researchGoal render) = true →
  startDisabled render = true →
  ∃ msg,
    startResearch_begin render now w
    = (Normal None, mkWorld (with_error (VStr msg) (react w)) (console w) (renderError w))
    ∧ (trim (researchGoal render) = ""%string → msg = "Please enter a research goal"%string)
    ∧ (trim (researchGoal render) ≠ ""%string →
       msg = "WebSocket not connected. Please wait and try again."%string).
Proof.
  unfold startDisabled, startResearch_begin. intros _ Hdis.
  destruct (truthy (VStr (trim (researchGoal render)))) eqn:Hg.
  - cbn [negb orb] in Hdis |- *. rewrite Hdis.
    eexists. split; [reflexivity|]. split; [|reflexivity].
    intros Hempty. apply truthy_VStr in Hempty. congruence.
  - cbn [negb]. eexists. split; [reflexivity|]. split; [reflexivity|].
    intros Hne. apply truthy_VStr in Hg. contradiction.
Qed.

Lemma start_refused_witness :
  ∃ msg,
    startResearch_begin initialState 1762128000000 mounted
    = (Normal None, mkWorld (with_error (VStr msg) initialState) [] false).
Proof.
  destruct (start_refused initialState 1762128000000 mounted eq_refl eq_refl)
    as (msg & H & _).
  exists msg. exact H.
Defined.

(** X14: For a goal of ASCII characters, the start button is enabled exactly
    when a start is accepted.  An accepted start sends the goal as typed
    (not trimmed), the new session id and the two configuration values of
    the render, and it clears the error and the hypotheses, sets the started
    flag and the status [running], and stores the session id; it does not
    write the running flag. *)
Theorem start_accepted_iff_enabled render now w :
  asciiText (researchGoal render) = true →
  (startDisabled render = false ↔
   ∃ req, fst (startResearch_begin render now w) = Normal (Some req))
  ∧ (startDisabled render = false →
     let id := ("session_" ++ decimal now)%string in
     startResearch_begin render now w
     = (Normal (Some (mkStartRequest (researchGoal render) id (maxIterations render)
                        (hypothesesPerIteration render))),
        mkWorld (with_sessionId (Some id)
                   (with_hypotheses []
                      (with_sessionStatus "running"
                         (with_isStarted true (with_error VNull (react w))))))
                (console w) (renderError w))).
Proof.
  intros _. unfold startDisabled, startResearch_begin.
  destruct (truthy (VStr (trim (researchGoal render)))); simpl;
    [destruct (wsConnected render); simpl|]; (split; [split|]);
    try discriminate; try (intros [req [=]]); try reflexivity.
  intros _. eauto.
Qed.

Lemma start_accepted_iff_enabled_witness :
  let s := with_wsConnected true (with_researchGoal " Can aspirin help? " initialState) in
  ∃ req, fst (startResearch_begin s 1762128000000 mounted) = Normal (Some req).
Proof.
  intros s.
  apply (proj1 (proj1 (start_accepted_iff_enabled s 1762128000000 mounted eq_refl))).
  reflexivity.
Defined.

Lemma substring_all s : String.substring 0 (String.length s) s = s.
Proof. induction s as [|c s IH]; simpl; [reflexivity|by rewrite IH]. Qed.

Lemma parseDecimal_decimal n : parseDecimal (decimal n) = Some n.
Proof.
  unfold parseDecimal, decimal. rewrite NilZero.usu.
  - by rewrite DecimalN.Unsigned.of_to.
  - destruct n as [|p]; [discriminate|]. apply DecimalPos.Unsigned.to_uint_nonnil.
Qed.

(** X15: The session id of an accepted start is stored as sent, its badge (the
    id without its first eight characters) is the decimal timestamp, and the
    timestamp can be read back from it: starts at different times get
    different ids. *)
Theorem session_id_round_trip render now w req :
  fst (startResearch_begin render now w) = Normal (Some req) →
  sessionId (react (snd (startResearch_begin render now w))) = Some (session_id req)
  ∧ sessionBadge (session_id req) = decimal now
  ∧ parseDecimal (sessionBadge (session_id req)) = Some now
  ∧ ∀ render' now' w' req',
      fst (startResearch_begin render' now' w') = Normal (Some req') →
      session_id req' = session_id req → now' = now.
Proof.
  assert (∀ r n x q, fst (startResearch_begin r n x) = Normal (Some q) →
            session_id q = ("session_" ++ decimal n)%string
            ∧ sessionId (react (snd (startResearch_begin r n x))) = Some (session_id q))
    as Hid.
  { intros r n x q. unfold startResearch_begin.
    destruct (truthy (VStr (trim (researchGoal r)))); simpl; [|discriminate].
    destruct (wsConnected r); simpl; [|discriminate].
    intros [= <-]. split; reflexivity. }
  assert (∀ n, sessionBadge ("session_" ++ decimal n) = decimal n) as Hbadge.
  { intros n. unfold sessionBadge. simpl. rewrite Nat.sub_0_r. apply substring_all. }
  intros Hreq. destruct (Hid _ _ _ _ Hreq) as [Hs Hstored].
  split; [exact Hstored|]. rewrite Hs, Hbadge.
  split; [reflexivity|]. split; [apply parseDecimal_decimal|].
  intros render' now' w' req' Hreq' Heq.
  destruct (Hid _ _ _ _ Hreq') as [Hs' _]. rewrite Hs' in Heq.
  apply (f_equal sessionBadge) in Heq. rewrite !Hbadge in Heq.
  apply (f_equal parseDecimal) in Heq. rewrite !parseDecimal_decimal in Heq.
  congruence.
Qed.

Lemma session_id_round_trip_witness :
  let s := with_wsConnected true (with_researchGoal "Can aspirin help?" initialState) in
  sessionId (react (snd (startResearch_begin s 1762128000000 mounted)))
  = Some "session_1762128000000"%string.
Proof.
  intros s.
  apply (session_id_round_trip s 1762128000000 mounted
           (mkStartRequest "Can aspirin help?" "session_1762128000000" 3 1) eq_refl).
Defined.

Lemma resetSession_run w :
  resetSession w
  = (Normal tt,
     mkWorld (with_domainDetectionLoading (domainDetectionLoading (react w))
                (with_wsConnected (wsConnected (react w)) initialState))
             (console w) (renderError w)).
Proof. reflexivity. Qed.

Lemma stopResearch_run w :
  stopResearch w
  = (Normal tt,
     mkWorld (with_iteration (VNum 0)
                (with_currentAgent (VStr "")
                   (with_progress pendingProgress
                      (with_isRunning false
                         (with_sessionStatus "idle" (with_isStarted false (react w)))))))
             (console w) (renderError w)).
Proof. reflexivity. Qed.

(** X16: [resetSession] returns and writes thirteen cells, each to its
    initial value; of the fifteen cells embedded it leaves out the connection
    flag and the inference-loading flag, which keep their values (the socket
    handle [ws], which is not embedded, it does not write either).
    Resetting twice, or stopping and then resetting, is the same as
    resetting once; after a reset nothing is ready, nothing is in
    processing, and nothing has been logged. *)
Theorem reset_restores_initial w :
  let s' := react (snd (resetSession w)) in
  fst (resetSession w) = Normal tt
  ∧ s' = with_domainDetectionLoading (domainDetectionLoading (react w))
           (with_wsConnected (wsConnected (react w)) initialState)
  ∧ react (snd (resetSession (snd (resetSession w)))) = s'
  ∧ react (snd (resetSession (snd (stopResearch w)))) = s'
  ∧ completedHypotheses s' = [] ∧ processingCount s' = 0
  ∧ console (snd (resetSession w)) = console w.
Proof.
  rewrite !resetSession_run, stopResearch_run. repeat split.
Qed.

(** ** Domain inference *)

Lemma length_trim_start l : length (trim_start l) ≤ length l.
Proof.
  induction l as [|c l IH]; simpl; [lia|]. destruct (is_space c); simpl; lia.
Qed.

Lemma length_string_of_list l : String.length (string_of_list_ascii l) = length l.
Proof. induction l as [|c l IH]; simpl; [reflexivity|by rewrite IH]. Qed.

Lemma length_list_of_string s : length (list_ascii_of_string s) = String.length s.
Proof. induction s as [|c s IH]; simpl; [reflexivity|by rewrite IH]. Qed.

Lemma length_trim s : String.length (trim s) ≤ String.length s.
Proof.
  unfold trim. rewrite length_string_of_list, length_rev.
  etransitivity; [apply length_trim_start|]. rewrite length_rev.
  etransitivity; [apply length_trim_start|]. by rewrite length_list_of_string.
Qed.

(** X17: For a goal of ASCII characters: when the debounce timer fires, the
    goal is measured after trimming, which never lengthens it.  At 15
    characters or fewer no request is made and the domain context is
    cleared, started session or not; above 15 a request is made, and the
    loading flag set, only when no session is started; otherwise nothing
    happens. *)
Theorem detectDomain_threshold render w :
  asciiText (researchGoal render) = true →
  let n := String.length (trim (researchGoal render)) in
  n ≤ String.length (researchGoal render)
  ∧ (n ≤ 15 →
     detectDomain_begin render w
     = (Normal false,
        mkWorld (with_domainContext VNull (react w)) (console w) (renderError w)))
  ∧ (15 < n → isStarted render = false →
     detectDomain_begin render w
     = (Normal true,
        mkWorld (with_domainDetectionLoading true (react w)) (console w) (renderError w)))
  ∧ (15 < n → isStarted render = true →
     detectDomain_begin render w = (Normal false, w)).
Proof.
  intros _ n. split; [apply length_trim|]. unfold detectDomain_begin. fold n.
  repeat split.
  - intros Hn. destruct (Nat.ltb_spec 15 n); [lia|]. simpl.
    destruct (Nat.leb_spec n 15); [reflexivity|lia].
  - intros Hn Hs. rewrite Hs. destruct (Nat.ltb_spec 15 n); [reflexivity|lia].
  - intros Hn Hs. rewrite Hs. destruct (Nat.ltb_spec 15 n); [|lia]. simpl.
    destruct (Nat.leb_spec n 15); [lia|reflexivity].
Qed.

Lemma detectDomain_threshold_witness :
  let s := with_researchGoal "     Why is it so?     " initialState in
  detectDomain_begin s mounted
  = (Normal false, mkWorld (with_domainContext VNull initialState) [] false).
Proof.
  intros s.
  apply (proj1 (proj2 (detectDomain_threshold s mounted eq_refl))).
  vm_compute. lia.
Defined.

(** X18: However an inference request ends, the handler returns, the
    loading flag is cleared, and no cell other than the domain context and
    the loading flag is written; a success stores the decoded body as it
    came, without looking at its shape (so nothing here says that the next
    render can display it). *)
Theorem detectDomain_settle_frame o w :
  let r := detectDomain_settle o w in
  fst r = Normal tt
  ∧ domainDetectionLoading (react (snd r)) = false
  ∧ (∀ c l, with_domainContext c (with_domainDetectionLoading l (react (snd r)))
            = with_domainContext c (with_domainDetectionLoading l (react w)))
  ∧ ∀ status v, o = Responded status (inr v) → response_ok status = true →
      domainContext (react (snd r)) = v.
Proof.
  js_unfold. destruct o as [e|status [e|v]]; simpl;
    try destruct (response_ok status) eqn:Hok; simpl; repeat split;
    try (intros; congruence).
Qed.

Lemma detectDomain_settle_frame_witness :
  let shapeless := object [("domain", VNum 5)] in
  domainContext (react (snd (detectDomain_settle (Responded 200 (inr shapeless)) mounted)))
  = shapeless.
Proof.
  intros shapeless.
  pose proof (detectDomain_settle_frame (Responded 200 (inr shapeless)) mounted)
    as (_ & _ & _ & H).
  apply (H 200%N shapeless); reflexivity.
Defined.

(** ** Invariants of every run *)

Lemma run_invariant (I : World → Prop) :
  (∀ e s, preserves I (handler e s)) → ∀ es w, I w → I (run es w).
Proof.
  intros Hstep es. induction es as [|e es IH]; intros w Hw; [assumption|].
  simpl. apply IH. by apply Hstep.
Qed.

Lemma status_named (t : string) : t ∈ statusValues ↔
  t = "idle"%string ∨ t = "running"%string ∨ t = "completed"%string ∨ t = "error"%string.
Proof.
  unfold statusValues. rewrite !elem_of_cons, elem_of_nil. tauto.
Qed.

(** X19: Whatever happens -- any events in any order, malformed messages
    included -- the session status is one of [idle], [running], [completed]
    and [error]. *)
Theorem status_always_known es :
  sessionStatus (react (run es mounted)) ∈ statusValues.
Proof.
  apply (run_invariant (λ w, sessionStatus (react w) ∈ statusValues)).
  - intros e s. destruct e; unfold handler; all_handlers;
      repeat keeps_step ltac:(intros; first [assumption | apply status_named; tauto]).
  - apply status_named. tauto.
Qed.

Lemma addHypothesis_flagged hyp hs :
  Forall flagged hs → Forall flagged (addHypothesis hyp hs).
Proof.
  intros H. unfold addHypothesis. destruct (List.find _ hs); [assumption|].
  apply Forall_app. split; [assumption|]. constructor; [|constructor].
  exists true. apply lookup_insert_eq.
Qed.

Lemma applyReview_flagged seen r hs :
  Forall flagged hs → Forall flagged (map (applyReview seen r) hs).
Proof.
  intros H. apply Forall_fmap. eapply Forall_impl; [exact H|].
  intros h Hh. simpl. unfold applyReview.
  destruct (_ && _); [|assumption]. exists false. apply lookup_insert_eq.
Qed.

Lemma markRanked_flagged l : Forall flagged (map markRanked l).
Proof.
  apply Forall_fmap, Forall_forall. intros h _. exists false. apply lookup_insert_eq.
Qed.

(** X20: Whatever happens, every stored hypothesis carries [isProcessing] as a
    boolean: each one is either in processing or not, and the count of those
    in processing plus the count of the others is the size of the
    collection. *)
Theorem hypotheses_always_flagged es :
  let s := react (run es mounted) in
  Forall flagged (hypotheses s)
  ∧ processingCount s
    + length (List.filter (λ h, negb (truthy (field h "isProcessing"))) (hypotheses s))
    = length (hypotheses s)
  ∧ length (completedHypotheses s) + processingCount s ≤ length (hypotheses s).
Proof.
  intros s.
  assert (∀ l : list obj,
            length (List.filter (λ h, truthy (field h "isProcessing")) l)
            + length (List.filter (λ h, negb (truthy (field h "isProcessing"))) l)
            = length l
            ∧ length (List.filter isReady l)
              ≤ length (List.filter (λ h, negb (truthy (field h "isProcessing"))) l))
    as Hcount.
  { induction l as [|h l [IH1 IH2]]; [by split|]. simpl. unfold isReady at 1.
    destruct (truthy (field h "isProcessing")); simpl.
    - split; lia.
    - destruct (truthy (field h "review") && truthy (field h "score")); simpl;
        split; lia. }
  split; [|unfold processingCount, completedHypotheses;
           destruct (Hcount (hypotheses s)); split; lia].
  apply (run_invariant (λ w, Forall flagged (hypotheses (react w)))).
  - intros e st. destruct e; unfold handler; all_handlers;
      repeat keeps_step ltac:(intros;
        first [ assumption
              | by apply addHypothesis_flagged
              | by apply applyReview_flagged
              | apply markRanked_flagged
              | constructor ]).
  - constructor.
Qed.

Lemma orOne_truthy p : truthy (VNum (orOne p)) = true.
Proof. unfold orOne. by destruct (truthy (VNum p)) eqn:E. Qed.

(** X21: Whatever happens, the two configuration values are numbers other than
    0 and NaN: an edit that does not parse to such a number stores 1; any
    other number is stored as typed, also outside 1-10 and 1-5. *)
Theorem configuration_never_zero es :
  let s := react (run es mounted) in
  truthy (VNum (maxIterations s)) = true
  ∧ truthy (VNum (hypothesesPerIteration s)) = true
  ∧ ∀ p, maxIterations (react (step (run es mounted) (MaxIterationsEdited p)))
         = (if truthy (VNum p) then p else 1%float)
         ∧ hypothesesPerIteration
             (react (step (run es mounted) (HypothesesPerIterationEdited p)))
           = (if truthy (VNum p) then p else 1%float).
Proof.
  intros s.
  assert (truthy (VNum (maxIterations s)) = true
          ∧ truthy (VNum (hypothesesPerIteration s)) = true) as [H1 H2].
  { apply (run_invariant (λ w, truthy (VNum (maxIterations (react w))) = true
                               ∧ truthy (VNum (hypothesesPerIteration (react w))) = true)).
    - intros e st. destruct e; unfold handler; all_handlers;
        repeat keeps_step ltac:(intros;
          first [ assumption
                | match goal with
                  | H : _ ∧ _ |- _ =>
                      destruct H; split;
                      first [assumption | apply orOne_truthy | reflexivity]
                  end ]).
    - split; reflexivity. }
  repeat split; assumption || reflexivity.
Qed.

(** ** AgentProgress *)

Lemma index_key_not_status i : index_key i ≠ "status".
Proof. unfold index_key. destruct (Nat.to_uint i); discriminate. Qed.

(** A string has no [status] property. *)
Lemma string_has_no_status s : get_def (VStr s) "status" = VUndefined.
Proof.
  unfold get_def, get, field, ownEnumerable.
  rewrite (not_elem_of_list_to_map_1 (M := gmap string)); [reflexivity|].
  intros Hin. apply list_elem_of_fmap in Hin as ([k v] & Hk & Hin).
  apply list_elem_of_lookup in Hin as [i Hi].
  rewrite list_lookup_imap in Hi.
  destruct (list_ascii_of_string s !! i); [|discriminate].
  simpl in Hi. injection Hi as <- _. simpl in Hk.
  by apply (index_key_not_status i).
Qed.

Lemma getAgentStatus_of_strings p name :
  (∀ v, p !! name = Some v → ∃ s, v = VStr s) →
  getAgentStatus (VObj p) name = VStr "pending".
Proof.
  intros Hp. unfold getAgentStatus. simpl.
  destruct (truthy (get_def (VObj p) name)) eqn:E; [|reflexivity]. simpl.
  unfold get_def, get, field, ownEnumerable in *. simpl in *.
  destruct (p !! name) as [v|] eqn:Ev; [|discriminate].
  destruct (Hp v eq_refl) as [s ->]. simpl.
  fold (field (ownEnumerable (VStr s)) "status").
  change (js_or (get_def (VStr s) "status") (VStr "pending") = VStr "pending").
  by rewrite string_has_no_status.
Qed.

(** X22: As long as the agent updates name known agents and statuses, the
    progress panel shows every agent as pending, in grey, whatever the
    progress map holds: the map stores status strings, and the panel reads
    the [status] property of each entry. *)
Theorem agent_cards_show_pending w name :
  reachable_by known_agents w → name ∈ agentNames →
  getAgentStatus (VObj (progress (react w))) name = VStr "pending"
  ∧ ∃ active, agentCard (react w) name = ("Pending", "#9ca3af", active).
Proof.
  intros (es & Hes & ->) _.
  pose proof (run_keeps_progress es mounted Hes mounted_progress_inv) as [[_ Hv] _].
  assert (getAgentStatus (VObj (progress (react (run es mounted)))) name
          = VStr "pending") as Hst.
  { apply getAgentStatus_of_strings. intros v Hl. specialize (Hv _ _ Hl).
    destruct v; try discriminate. by eexists. }
  split; [exact Hst|]. unfold agentCard. rewrite Hst. by eexists.
Qed.

Lemma agent_cards_show_pending_witness :
  let w := run [ChannelMessage (Some (agentUpdate "generation" "running" (object [])))]
               mounted in
  progress (react w) !! "generation" = Some (VStr "running")
  ∧ getAgentStatus (VObj (progress (react w))) "generation" = VStr "pending".
Proof.
  split; [reflexivity|].
  apply (agent_cards_show_pending
           (run [ChannelMessage (Some (agentUpdate "generation" "running" (object [])))]
                mounted) "generation").
  - eexists. split; [|reflexivity]. repeat constructor.
  - unfold agentNames. apply list_elem_of_here.
Defined.

(** ** Panels *)

(** X23: The ready message excludes the progress panel and the hypothesis list;
    the hypothesis list is never shown without the progress panel above
    it.  After a reset the ready message is shown when the socket is up or
    down alike, and nothing is in processing. *)
Theorem ready_message_excludes_panels s w :
  (showReadyMessage s = true → showAgentProgress s = false ∧ showHypotheses s = false)
  ∧ (showHypotheses s = true → showAgentProgress s = true)
  ∧ (let s' := react (snd (resetSession w)) in
     showReadyMessage s' = true ∧ showProcessing s' = false).
Proof.
  unfold showReadyMessage, showAgentProgress, showHypotheses.
  split; [|split].
  - destruct (isStarted s); simpl; [discriminate|].
    destruct (length (completedHypotheses s)); simpl; [by split|discriminate].
  - intros ->. apply orb_true_r.
  - rewrite resetSession_run. by split.
Qed.

(** ** The health probe *)

(** X24: Once the probe has settled, the [backendHealth] cell holds
    [healthy] exactly when the request was answered with a status from 200
    to 299, whatever the body, and [error] in every other case, a rejected
    request included; it never stays [connecting].  (The cell is not
    rendered: the badge in the header is fixed text.) *)
Theorem health_probe_settled o :
  (checkBackendHealth o = "healthy"%string
   ↔ ∃ status body, o = Responded status body ∧ (200 ≤ status ≤ 299)%N)
  ∧ (checkBackendHealth o = "error"%string
     ↔ ¬ ∃ status body, o = Responded status body ∧ (200 ≤ status ≤ 299)%N)
  ∧ checkBackendHealth o ≠ "connecting"%string.
Proof.
  destruct o as [e|status body]; simpl.
  - split; [|split]; try discriminate.
    + split; [discriminate|]. by intros (? & ? & ? & _).
    + split; [|reflexivity]. by intros _ (? & ? & ? & _).
  - unfold response_ok.
    destruct (N.leb_spec 200 status), (N.leb_spec status 299); simpl;
      (split; [|split]); try discriminate;
      (split;
       [ intros Hc; try discriminate Hc; try (intros (? & ? & [= <- _] & ?); lia);
         eauto
       | first [ intros (? & ? & [= <- _] & ?); try reflexivity; lia
               | intros Hn; try reflexivity; exfalso; apply Hn; eauto ] ]).
Qed.

(** ** Sorting what is sorted *)

(** X25: when the scores of the ready hypotheses are numbers, a ready
    subset that stands in descending score order already (no entry directly
    before one with a higher score) is rendered as it is stored, and sorting
    the rendered list once more changes nothing. *)
Theorem ready_view_of_sorted `{Host} s :
  numericScores (completedHypotheses s) →
  (Sorted noLowerScore (completedHypotheses s) →
   sortedHypotheses s = completedHypotheses s)
  ∧ Array_sort byScoreDescending (sortedHypotheses s) = sortedHypotheses s.
Proof.
  intros Hn. split.
  - intros Hs. apply descending_in_place; [apply ready_is_ready|assumption..].
  - destruct (sortedHypotheses_ready s Hn) as [Hr Hn'].
    apply descending_in_place; [assumption..|].
    apply StronglySorted_Sorted.
    pose proof (ready_view_sorted_by_score s Hn) as Hd. exact Hd.
Qed.

Lemma ready_view_of_sorted_witness :
  Array_sort (@byScoreDescending plainHost) (@sortedHypotheses plainHost tiedState)
  = @sortedHypotheses plainHost tiedState.
Proof.
  apply (proj2 (@ready_view_of_sorted plainHost tiedState tiedState_numeric)).
Defined.

(** ** The connection flag *)

Lemma step_wsConnected w e :
  wsConnected (react (step w e)) = connectedStep (wsConnected (react w)) e.
Proof.
  unfold step.
  assert (∀ c : M unit,
            preserves (λ x, wsConnected (react x) = wsConnected (react w)) c →
            wsConnected (react (snd (c w))) = wsConnected (react w)) as Hk.
  { intros c Hc. by apply Hc. }
  destruct e; simpl; try reflexivity; apply Hk; all_handlers;
    repeat keeps_step unchanged.
Qed.

Lemma run_wsConnected es w :
  wsConnected (react (run es w)) = foldl connectedStep (wsConnected (react w)) es.
Proof.
  revert w. induction es as [|e es IH]; intros w; [reflexivity|].
  simpl. by rewrite IH, step_wsConnected.
Qed.

(** X26: The connection flag follows the channel and nothing else: after any
    events it is what the last of the channel's open, close and error events
    made it, and false when there was none; no message, command, edit or
    reset writes it.  So, when the goal is of ASCII characters, the start
    button is enabled exactly when the channel was last seen open and the
    trimmed goal is not empty. *)
Theorem connection_follows_channel es :
  let s := react (run es mounted) in
  wsConnected s = connectedAfter es
  ∧ (asciiText (researchGoal s) = true →
     (startDisabled s = false
      ↔ connectedAfter es = true ∧ trim (researchGoal s) ≠ ""%string)).
Proof.
  intros s.
  assert (wsConnected s = connectedAfter es) as Hc by apply run_wsConnected.
  split; [exact Hc|]. intros _. unfold startDisabled.
  rewrite Hc, orb_false_iff, !negb_false_iff.
  rewrite <- (not_false_iff_true (truthy _)), truthy_VStr. tauto.
Qed.

Lemma connection_follows_channel_witness :
  let es := [ChannelOpen; GoalEdited "Can aspirin help?"; ChannelError (JsError "Event" "");
             ResetClicked; GoalEdited "Can aspirin help?"] in
  wsConnected (react (run es mounted)) = false
  ∧ startDisabled (react (run es mounted)) = true.
Proof.
  intros es.
  pose proof (connection_follows_channel es) as [Hc Hb].
  split; [exact Hc|].
  destruct (startDisabled (react (run es mounted))) eqn:E; [reflexivity|].
  destruct (proj1 (Hb eq_refl) eq_refl) as [E' _]. discriminate E'.
Defined.
